(** * MediFriend (hms-tool): appointments, prescriptions and notifications

    Shallow embedding of [database.py], [models.py], [routes/doctor.py],
    [routes/patient.py] and the [role_required] decorator of
    [routes/auth.py].

    - Each SQLite table is a list of rows in rowid order; AUTOINCREMENT is
      a per-table counter (the first row gets id 1).
    - [created_at] timestamps are seconds ([Z]); [datetime('now', '-7 days')]
      is [now - 7 * 86400].  Appointment dates are the TEXT the form sends,
      compared as SQLite compares TEXT (lexicographically).
    - [execute_query] opens a connection per statement, commits it, and on an
      exception rolls back that statement only.  The monad [M] threads the
      database and a list of storage faults (one entry consumed per write
      statement; [true] makes that statement fail as a storage error).
      An exception does not undo earlier commits: the state is kept.
    - A Flask route returns a [response]; an exception that the route does
      not catch becomes an HTTP 500. *)

From Stdlib Require Import String Ascii List Bool Arith ZArith Lia.
From Stdlib Require Import Sorting.Sorted Sorting.Permutation.
Import ListNotations.

Local Open Scope Z_scope.

(** ** Enumerated columns (CHECK constraints of [models.py]) *)

Inductive role := PATIENT | DOCTOR.

Definition role_eqb (a b : role) : bool :=
  match a, b with
  | PATIENT, PATIENT | DOCTOR, DOCTOR => true
  | _, _ => false
  end.

Inductive appointment_status := PENDING | CONFIRMED | REJECTED | COMPLETED.

Definition status_eqb (a b : appointment_status) : bool :=
  match a, b with
  | PENDING, PENDING | CONFIRMED, CONFIRMED
  | REJECTED, REJECTED | COMPLETED, COMPLETED => true
  | _, _ => false
  end.

Inductive notification_type :=
  APPOINTMENT_ACCEPTED | APPOINTMENT_REJECTED
| PRESCRIPTION_WRITTEN | APPOINTMENT_REQUESTED.

(** ** Rows *)

Record user := mk_user {
  u_id : nat; full_name : string; email : string; role_of : role }.

Record patient_detail := mk_patient_detail {
  pd_user_id : nat; blood_group : string }.

Record appointment := mk_appointment {
  a_id : nat; patient_id : nat; doctor_id : nat;
  date : string; time : string; symptoms : option string;
  status : appointment_status; a_created_at : Z }.

Record medicine := mk_medicine {
  m_name : string; m_dosage : string; m_duration : string }.

Record prescription := mk_prescription {
  p_id : nat; p_doctor_id : nat; p_patient_id : nat;
  p_appointment_id : option nat; diagnosis : string;
  medicines_json : list medicine; notes : option string }.

Record upload := mk_upload {
  up_id : nat; up_patient_id : nat; filename : string }.

Record notification := mk_notification {
  n_id : nat; n_user_id : nat; n_type : notification_type;
  message : string; link : option string; is_read : bool;
  n_appointment_id : option nat; n_prescription_id : option nat;
  n_created_at : Z }.

Record db := mk_db {
  users : list user;
  patient_details : list patient_detail;
  appointments : list appointment;
  prescriptions : list prescription;
  uploads : list upload;
  notifications : list notification;
  seq_appointments : nat;
  seq_prescriptions : nat;
  seq_notifications : nat;
  now : Z }.

Definition set_appointments (d : db) (l : list appointment) : db :=
  mk_db (users d) (patient_details d) l (prescriptions d) (uploads d)
    (notifications d) (seq_appointments d) (seq_prescriptions d)
    (seq_notifications d) (now d).

Definition set_prescriptions (d : db) (l : list prescription) : db :=
  mk_db (users d) (patient_details d) (appointments d) l (uploads d)
    (notifications d) (seq_appointments d) (seq_prescriptions d)
    (seq_notifications d) (now d).

Definition set_uploads (d : db) (l : list upload) : db :=
  mk_db (users d) (patient_details d) (appointments d) (prescriptions d) l
    (notifications d) (seq_appointments d) (seq_prescriptions d)
    (seq_notifications d) (now d).

Definition set_notifications (d : db) (l : list notification) : db :=
  mk_db (users d) (patient_details d) (appointments d) (prescriptions d)
    (uploads d) l (seq_appointments d) (seq_prescriptions d)
    (seq_notifications d) (now d).

Definition with_status (a : appointment) (s : appointment_status) : appointment :=
  mk_appointment (a_id a) (patient_id a) (doctor_id a) (date a) (time a)
    (symptoms a) s (a_created_at a).

Definition mark_read (n : notification) : notification :=
  mk_notification (n_id n) (n_user_id n) (n_type n) (message n) (link n) true
    (n_appointment_id n) (n_prescription_id n) (n_created_at n).

(** ** Statements, exceptions and the [execute_query] helper *)

Inductive exn :=
  IntegrityError      (* a FOREIGN KEY constraint fails *)
| OperationalError    (* the storage engine fails the statement *)
| TypeError           (* [None['date']] in a route *)
| ValueError.         (* [int()] of a malformed string *)

Inductive res (A : Type) := Ok (a : A) | Err (e : exn).
Arguments Ok {A} a.
Arguments Err {A} e.

Record st := mk_st { db_of : db; faults : list bool }.

Definition M (A : Type) := st -> res A * st.

Definition ret {A} (a : A) : M A := fun s => (Ok a, s).

Definition bind {A B} (m : M A) (k : A -> M B) : M B := fun s =>
  match m s with
  | (Ok a, s') => k a s'
  | (Err e, s') => (Err e, s')
  end.

Notation "x <- m ;; k" := (bind m (fun x => k))
  (at level 61, m at next level, right associativity).

Definition raise {A} (e : exn) : M A := fun s => (Err e, s).

(** [try: m except Exception: h] *)
Definition try_except {A} (m : M A) (h : exn -> M A) : M A := fun s =>
  match m s with
  | (Ok a, s') => (Ok a, s')
  | (Err e, s') => h e s'
  end.

(** [execute_query(..., fetchone/fetchall)]: a read statement. *)
Definition query {A} (f : db -> A) : M A := fun s => (Ok (f (db_of s)), s).

Definition next_fault (s : st) : bool * list bool :=
  match faults s with
  | [] => (false, [])
  | b :: r => (b, r)
  end.

(** [execute_query(..., commit=True)]: the statement either commits and
    returns [cursor.lastrowid] (0 for a statement that inserts nothing), or
    is rolled back and its exception re-raised. *)
Definition execute_write (f : db -> res (db * nat)) : M nat := fun s =>
  let (fault, rest) := next_fault s in
  if fault then (Err OperationalError, mk_st (db_of s) rest)
  else match f (db_of s) with
       | Ok (d', rowid) => (Ok rowid, mk_st d' rest)
       | Err e => (Err e, mk_st (db_of s) rest)
       end.

(** ** Key lookups (primary keys and the UNIQUE [patient_details.user_id]) *)

Definition find_user (d : db) (id : nat) : option user :=
  find (fun u => Nat.eqb (u_id u) id) (users d).

Definition find_patient_detail (d : db) (id : nat) : option patient_detail :=
  find (fun p => Nat.eqb (pd_user_id p) id) (patient_details d).

Definition find_appointment (d : db) (id : nat) : option appointment :=
  find (fun a => Nat.eqb (a_id a) id) (appointments d).

Definition user_exists (d : db) (id : nat) : bool :=
  existsb (fun u => Nat.eqb (u_id u) id) (users d).

Definition appointment_exists (d : db) (id : nat) : bool :=
  existsb (fun a => Nat.eqb (a_id a) id) (appointments d).

Definition prescription_exists (d : db) (id : nat) : bool :=
  existsb (fun p => Nat.eqb (p_id p) id) (prescriptions d).

Definition opt_ref (exists_ : nat -> bool) (r : option nat) : bool :=
  match r with None => true | Some id => exists_ id end.

(** ** [database.py]: appointment functions *)

(** [INSERT INTO appointments (...) VALUES (?, ?, ?, ?, ?, 'PENDING')] *)
Definition insert_appointment_row (pid did : nat) (dt tm : string)
    (sym : option string) (d : db) : res (db * nat) :=
  if user_exists d pid && user_exists d did then
    let id := S (seq_appointments d) in
    Ok (mk_db (users d) (patient_details d)
          (appointments d ++ [mk_appointment id pid did dt tm sym PENDING (now d)])
          (prescriptions d) (uploads d) (notifications d)
          id (seq_prescriptions d) (seq_notifications d) (now d), id)
  else Err IntegrityError.

(** [INSERT INTO notifications (user_id, type, message, link,
    appointment_id, prescription_id) VALUES (...)]; [is_read] defaults to 0. *)
Definition insert_notification_row (uid : nat) (ty : notification_type)
    (msg : string) (lnk : option string) (aid pid : option nat) (d : db)
    : res (db * nat) :=
  if user_exists d uid && opt_ref (appointment_exists d) aid
     && opt_ref (prescription_exists d) pid then
    let id := S (seq_notifications d) in
    Ok (mk_db (users d) (patient_details d) (appointments d)
          (prescriptions d) (uploads d)
          (notifications d ++ [mk_notification id uid ty msg lnk false aid pid (now d)])
          (seq_appointments d) (seq_prescriptions d) id (now d), id)
  else Err IntegrityError.

Definition create_notification (uid : nat) (ty : notification_type)
    (msg : string) (lnk : option string) (aid pid : option nat) : M nat :=
  execute_write (insert_notification_row uid ty msg lnk aid pid).

(** [f"{patient['full_name']} has requested an appointment for {date} at {time}"] *)
Definition requested_message (name dt tm : string) : string :=
  (name ++ " has requested an appointment for " ++ dt ++ " at " ++ tm)%string.

Definition create_appointment (pid did : nat) (dt tm : string)
    (sym : option string) : M nat :=
  appointment_id <- execute_write (insert_appointment_row pid did dt tm sym) ;;
  patient <- query (fun d => option_map full_name (find_user d pid)) ;;
  match patient with
  | Some name =>
      if Nat.ltb 0 appointment_id then
        _ <- create_notification did APPOINTMENT_REQUESTED
               (requested_message name dt tm) (Some "/doctor/appointments"%string)
               (Some appointment_id) None ;;
        ret appointment_id
      else ret appointment_id
  | None => ret appointment_id
  end.

(** [UPDATE appointments SET status = ? WHERE id = ?] *)
Definition update_appointment_status (aid : nat) (s : appointment_status) : M nat :=
  execute_write (fun d =>
    Ok (set_appointments d
          (map (fun a => if Nat.eqb (a_id a) aid then with_status a s else a)
               (appointments d)), 0%nat)).

(** [DELETE FROM appointments WHERE id = ?], with the schema's
    [ON DELETE CASCADE] (notifications) and [ON DELETE SET NULL]
    (prescriptions) applied to the rows that reference a deleted row. *)
Definition cancel_appointment (aid : nat) : M nat :=
  execute_write (fun d =>
    let deleted := filter (fun a => Nat.eqb (a_id a) aid) (appointments d) in
    let is_deleted (r : option nat) :=
      match r with
      | Some x => existsb (fun a => Nat.eqb (a_id a) x) deleted
      | None => false
      end in
    let d1 := set_appointments d
                (filter (fun a => negb (Nat.eqb (a_id a) aid)) (appointments d)) in
    let d2 := set_notifications d1
                (filter (fun n => negb (is_deleted (n_appointment_id n)))
                        (notifications d1)) in
    let d3 := set_prescriptions d2
                (map (fun p => if is_deleted (p_appointment_id p) then
                                 mk_prescription (p_id p) (p_doctor_id p)
                                   (p_patient_id p) None (diagnosis p)
                                   (medicines_json p) (notes p)
                               else p) (prescriptions d2)) in
    Ok (d3, 0%nat)).

(** ** Prescriptions and uploads *)

(** [INSERT INTO prescriptions (...) VALUES (...)] *)
Definition insert_prescription_row (did pid : nat) (aid : option nat)
    (diag : string) (meds : list medicine) (nts : option string) (d : db)
    : res (db * nat) :=
  if user_exists d did && user_exists d pid && opt_ref (appointment_exists d) aid then
    let id := S (seq_prescriptions d) in
    Ok (mk_db (users d) (patient_details d) (appointments d)
          (prescriptions d ++ [mk_prescription id did pid aid diag meds nts])
          (uploads d) (notifications d)
          (seq_appointments d) id (seq_notifications d) (now d), id)
  else Err IntegrityError.

Definition create_prescription (did pid : nat) (aid : option nat)
    (diag : string) (meds : list medicine) (nts : option string) : M nat :=
  execute_write (insert_prescription_row did pid aid diag meds nts).

(** [DELETE FROM uploads WHERE id = ?] *)
Definition delete_uploaded_prescription (uid : nat) : M nat :=
  execute_write (fun d =>
    Ok (set_uploads d (filter (fun u => negb (Nat.eqb (up_id u) uid)) (uploads d)), 0%nat)).

(** ** [ORDER BY ... DESC]: a stable insertion sort on a "comes before" test *)

Section InsertionSort.
Context {A : Type} (before : A -> A -> bool).

Fixpoint insert_by (x : A) (l : list A) : list A :=
  match l with
  | [] => [x]
  | y :: r => if before x y then x :: y :: r else y :: insert_by x r
  end.

Definition sort_by (l : list A) : list A := fold_right insert_by [] l.
End InsertionSort.

(** ** [database.py]: notification functions *)

Definition seven_days : Z := 7 * 86400.
Definition thirty_days : Z := 30 * 86400.

(** [ORDER BY created_at DESC] *)
Definition newer (x y : notification) : bool := n_created_at y <? n_created_at x.

(** [user_id = ? AND is_read = 1
     AND datetime(created_at) < datetime('now', '-7 days')] *)
Definition read_sweep_deletes (uid : nat) (now_ : Z) (n : notification) : bool :=
  Nat.eqb (n_user_id n) uid && is_read n && (n_created_at n <? now_ - seven_days).

(** [user_id = ?] and, with [unread_only], [is_read = 0] *)
Definition fetch_selects (uid : nat) (unread_only : bool) (n : notification) : bool :=
  Nat.eqb (n_user_id n) uid && (if unread_only then negb (is_read n) else true).

Definition get_user_notifications (uid : nat) (unread_only : bool)
    : M (list notification) :=
  (* DELETE FROM notifications WHERE <read_sweep_deletes> *)
  _ <- execute_write (fun d =>
         Ok (set_notifications d
               (filter (fun n => negb (read_sweep_deletes uid (now d) n))
                       (notifications d)), 0%nat)) ;;
  (* SELECT * FROM notifications WHERE <fetch_selects>
     ORDER BY created_at DESC LIMIT 50 *)
  query (fun d =>
    firstn 50 (sort_by newer (filter (fetch_selects uid unread_only) (notifications d)))).

(** [UPDATE notifications SET is_read = 1 WHERE user_id = ? AND is_read = 0] *)
Definition mark_notifications_as_read (uid : nat) : M bool :=
  _ <- execute_write (fun d =>
         Ok (set_notifications d
               (map (fun n => if Nat.eqb (n_user_id n) uid && negb (is_read n)
                              then mark_read n else n) (notifications d)), 0%nat)) ;;
  ret true.

(** [DELETE FROM notifications WHERE user_id = ? AND is_read = 1] *)
Definition delete_read_notifications (uid : nat) : M bool :=
  _ <- execute_write (fun d =>
         Ok (set_notifications d
               (filter (fun n => negb (Nat.eqb (n_user_id n) uid && is_read n))
                       (notifications d)), 0%nat)) ;;
  ret true.

(** [DELETE FROM notifications
     WHERE datetime(created_at) < datetime('now', '-30 days')] *)
Definition cleanup_old_notifications : M bool :=
  _ <- execute_write (fun d =>
         Ok (set_notifications d
               (filter (fun n => negb (n_created_at n <? now d - thirty_days))
                       (notifications d)), 0%nat)) ;;
  ret true.

(** ** [get_doctor_patients]: the derived roster *)

Record roster_row := mk_roster_row {
  r_id : nat; r_full_name : string;
  total_appointments : nat; last_visit : string; completed_appointments : nat }.

Definition confirmed_or_completed (s : appointment_status) : bool :=
  status_eqb s CONFIRMED || status_eqb s COMPLETED.

(** [FROM users u JOIN patient_details p ON u.id = p.user_id
     JOIN appointments a ON u.id = a.patient_id
     WHERE a.doctor_id = ? AND a.status IN ('CONFIRMED', 'COMPLETED')];
    [users.id] and [patient_details.user_id] are unique, so each appointment
    joins with at most one user and one details row. *)
Definition roster_join (d : db) (did : nat)
    : list (user * patient_detail * appointment) :=
  flat_map (fun a =>
    if Nat.eqb (doctor_id a) did && confirmed_or_completed (status a) then
      match find_user d (patient_id a), find_patient_detail d (patient_id a) with
      | Some u, Some p => [(u, p, a)]
      | _, _ => []
      end
    else []) (appointments d).

(** [MAX(a.date)] over a non-empty group (TEXT compares lexicographically;
    the empty string is below every TEXT value). *)
Definition max_text (l : list string) : string :=
  fold_right (fun x m => if String.leb x m then m else x) EmptyString l.

Definition group_row (d : db) (rows : list (user * patient_detail * appointment))
    (pid : nat) : roster_row :=
  let g := map (fun '(_, _, a) => a)
               (filter (fun '(u, _, _) => Nat.eqb (u_id u) pid) rows) in
  mk_roster_row pid
    (match find_user d pid with Some u => full_name u | None => EmptyString end)
    (length (nodup Nat.eq_dec (map a_id g)))                         (* COUNT(DISTINCT a.id) *)
    (max_text (map date g))                                          (* MAX(a.date) *)
    (length (filter (fun a => status_eqb (status a) COMPLETED) g)).  (* SUM(CASE ...) *)

(** [ORDER BY MAX(a.date) DESC] *)
Definition later_visit (x y : roster_row) : bool :=
  String.ltb (last_visit y) (last_visit x).

Definition get_doctor_patients (did : nat) : M (list roster_row) :=
  query (fun d =>
    let rows := roster_join d did in
    sort_by later_visit
      (map (group_row d rows)
           (nodup Nat.eq_dec (map (fun '(u, _, _) => u_id u) rows)))).

(** ** Python's [str.strip()] on ASCII text

    [str.isspace] holds for 9..13 ([\t \n \x0b \x0c \r]), 28..31 and 32. *)

Definition is_space (c : ascii) : bool :=
  let n := nat_of_ascii c in
  (Nat.leb 9 n && Nat.leb n 13) || (Nat.leb 28 n && Nat.leb n 32).

Fixpoint lstrip_chars (l : list ascii) : list ascii :=
  match l with
  | [] => []
  | c :: r => if is_space c then lstrip_chars r else l
  end.

Definition strip (s : string) : string :=
  string_of_list_ascii
    (rev (lstrip_chars (rev (lstrip_chars (list_ascii_of_string s))))).

(** Python truthiness of [s.strip()] *)
Definition nonblank (s : string) : bool := negb (String.eqb (strip s) EmptyString).

(** ** Flask layer: session, responses, [role_required] *)

Record session := mk_session {
  s_user_id : option nat; s_role : option role; s_full_name : option string }.

Inductive response :=
| Redirect (category : string) (target : string)   (* flash(..., category) + redirect *)
| JsonNotifications (ns : list notification)
| JsonSuccess
| JsonCount (count : nat)
| InternalServerError.                             (* uncaught exception: HTTP 500 *)

(** An exception escaping a view function becomes an HTTP 500. *)
Definition flask_route (m : M response) : M response :=
  try_except m (fun _ => ret InternalServerError).

Definition role_required (r : role) (sess : session) (view : nat -> M response)
    : M response :=
  match s_user_id sess with
  | None => ret (Redirect "warning" "auth.login")
  | Some uid =>
      match s_role sess with
      | Some r' => if role_eqb r' r then view uid else ret (Redirect "danger" "home")
      | None => ret (Redirect "danger" "home")
      end
  end.

(** [session.get('full_name', 'Doctor')] *)
Definition doctor_name (sess : session) : string :=
  match s_full_name sess with Some n => n | None => "Doctor"%string end.

(** ** [routes/doctor.py] *)

Definition accepted_message (dn dt tm : string) : string :=
  ("Dr. " ++ dn ++ " accepted your appointment for " ++ dt ++ " at " ++ tm)%string.

Definition declined_message (dn dt tm : string) : string :=
  ("Dr. " ++ dn ++ " declined your appointment request for " ++ dt ++ " at " ++ tm)%string.

Definition accept_appointment (sess : session) (aid : nat) : M response :=
  flask_route (role_required DOCTOR sess (fun _ =>
    try_except
      (appointment <- query (fun d => find_appointment d aid) ;;
       _ <- update_appointment_status aid CONFIRMED ;;
       match appointment with
       | None => raise TypeError          (* appointment['date'] on None *)
       | Some a =>
           _ <- create_notification (patient_id a) APPOINTMENT_ACCEPTED
                  (accepted_message (doctor_name sess) (date a) (time a))
                  (Some "/patient/appointments"%string) (Some aid) None ;;
           ret (Redirect "success" "doctor.appointments")
       end)
      (fun _ => ret (Redirect "danger" "doctor.appointments")))).

Definition reject_appointment (sess : session) (aid : nat) : M response :=
  flask_route (role_required DOCTOR sess (fun _ =>
    try_except
      (appointment <- query (fun d => find_appointment d aid) ;;
       _ <- update_appointment_status aid REJECTED ;;
       match appointment with
       | None => raise TypeError
       | Some a =>
           _ <- create_notification (patient_id a) APPOINTMENT_REJECTED
                  (declined_message (doctor_name sess) (date a) (time a))
                  None (Some aid) None ;;
           ret (Redirect "info" "doctor.appointments")
       end)
      (fun _ => ret (Redirect "danger" "doctor.appointments")))).

Definition complete_appointment (sess : session) (aid : nat) : M response :=
  flask_route (role_required DOCTOR sess (fun _ =>
    try_except
      (_ <- update_appointment_status aid COMPLETED ;;
       ret (Redirect "success" "doctor.appointments"))
      (fun _ => ret (Redirect "danger" "doctor.appointments")))).

(** The POSTed form of [write_prescription] *)
Record prescription_form := mk_prescription_form {
  f_diagnosis : option string;
  f_notes : option string;
  f_medicine_name : list string;        (* getlist('medicine_name[]') *)
  f_medicine_dosage : list string;
  f_medicine_duration : list string }.

(** Python's three-argument [zip] *)
Fixpoint zip3 {A B C} (xs : list A) (ys : list B) (zs : list C) : list (A * B * C) :=
  match xs, ys, zs with
  | x :: xs', y :: ys', z :: zs' => (x, y, z) :: zip3 xs' ys' zs'
  | _, _, _ => []
  end.

(** [for name, dosage, duration in zip(...): if name.strip() and
    dosage.strip() and duration.strip(): medicines.append({...stripped...})] *)
Fixpoint collect_loop (rows : list (string * string * string)) : list medicine :=
  match rows with
  | [] => []
  | (n, ds, du) :: r =>
      if nonblank n && nonblank ds && nonblank du
      then mk_medicine (strip n) (strip ds) (strip du) :: collect_loop r
      else collect_loop r
  end.

Definition collect_medicines (names dosages durations : list string) : list medicine :=
  collect_loop (zip3 names dosages durations).

Definition get_or_empty (o : option string) : string :=
  match o with Some s => s | None => EmptyString end.

Definition written_message (dn : string) : string :=
  ("Dr. " ++ dn ++ " has written a prescription for you")%string.

(** POST [/write-prescription/<patient_id>/<appointment_id>] *)
Definition write_prescription (sess : session) (pid aid : nat)
    (form : prescription_form) : M response :=
  flask_route (role_required DOCTOR sess (fun doctor_id =>
    let diag := strip (get_or_empty (f_diagnosis form)) in
    let nts := strip (get_or_empty (f_notes form)) in
    let meds := collect_medicines (f_medicine_name form) (f_medicine_dosage form)
                  (f_medicine_duration form) in
    if String.eqb diag EmptyString then
      ret (Redirect "error" "doctor.write_prescription")
    else
      prescription_id <- create_prescription doctor_id pid (Some aid) diag meds
                           (if String.eqb nts EmptyString then None else Some nts) ;;
      if Nat.ltb 0 prescription_id then
        _ <- create_notification pid PRESCRIPTION_WRITTEN
               (written_message (doctor_name sess))
               (Some "/patient/prescriptions"%string) None (Some prescription_id) ;;
        ret (Redirect "success" "doctor.appointments")
      else ret (Redirect "error" "doctor.write_prescription"))).

(** ** [routes/patient.py] *)

Definition cancel_appointment_route (sess : session) (aid : nat) : M response :=
  flask_route (role_required PATIENT sess (fun _ =>
    try_except
      (_ <- cancel_appointment aid ;;
       ret (Redirect "success" "patient.appointments"))
      (fun _ => ret (Redirect "danger" "patient.appointments")))).

Definition delete_uploaded_prescription_route (sess : session) (uid : nat)
    : M response :=
  flask_route (role_required PATIENT sess (fun _ =>
    try_except
      (_ <- delete_uploaded_prescription uid ;;
       ret (Redirect "success" "patient.prescriptions"))
      (fun _ => ret (Redirect "danger" "patient.prescriptions")))).

(** ** Notification API routes (identical in both blueprints) *)

Definition get_notifications (r : role) (sess : session) : M response :=
  flask_route (role_required r sess (fun uid =>
    ns <- get_user_notifications uid true ;;
    ret (JsonNotifications ns))).

Definition mark_notifications_read (r : role) (sess : session) : M response :=
  flask_route (role_required r sess (fun uid =>
    _ <- mark_notifications_as_read uid ;;
    _ <- delete_read_notifications uid ;;
    ret JsonSuccess)).

(** ** The unread-notification badge *)

(** [SELECT COUNT( * ) as count FROM notifications
     WHERE user_id = ? AND is_read = 0]; COUNT always yields a row. *)
Definition get_unread_notification_count (uid : nat) : M nat :=
  query (fun d =>
    length (filter (fun n => Nat.eqb (n_user_id n) uid && negb (is_read n))
                   (notifications d))).

(** GET [/api/notifications/count] (identical in both blueprints) *)
Definition get_notification_count (r : role) (sess : session) : M response :=
  flask_route (role_required r sess (fun uid =>
    count <- get_unread_notification_count uid ;;
    ret (JsonCount count))).

(** ** [get_doctor_stats]: the doctor's dashboard counters *)

Record doctor_stats := mk_doctor_stats {
  pending_appointments : nat; today_appointments : nat; total_patients : nat }.

(** [today] is [date.today().strftime('%Y-%m-%d')]; each COUNT always
    yields a row, so the [if ... else 0] fallbacks are never taken. *)
Definition get_doctor_stats (today : string) (did : nat) : M doctor_stats :=
  (* WHERE doctor_id = ? AND status = 'PENDING' *)
  pending_count <- query (fun d =>
    length (filter (fun a => Nat.eqb (doctor_id a) did && status_eqb (status a) PENDING)
                   (appointments d))) ;;
  (* WHERE doctor_id = ? AND date = ? AND status IN ('CONFIRMED', 'COMPLETED') *)
  today_count <- query (fun d =>
    length (filter (fun a => Nat.eqb (doctor_id a) did && String.eqb (date a) today
                             && confirmed_or_completed (status a))
                   (appointments d))) ;;
  (* COUNT(DISTINCT patient_id) ... WHERE doctor_id = ?
     AND status IN ('CONFIRMED', 'COMPLETED') *)
  patients_count <- query (fun d =>
    length (nodup Nat.eq_dec
      (map patient_id
        (filter (fun a => Nat.eqb (doctor_id a) did && confirmed_or_completed (status a))
                (appointments d))))) ;;
  ret (mk_doctor_stats pending_count today_count patients_count).

(** ** [get_doctor_appointments] *)

(** [ORDER BY a.created_at DESC] *)
Definition newer_request (x y : appointment * string) : bool :=
  a_created_at (fst y) <? a_created_at (fst x).

(** [SELECT a.*, u.full_name as patient_name, ... FROM appointments a
     JOIN users u ON a.patient_id = u.id WHERE a.doctor_id = ?
     ORDER BY a.created_at DESC]; a row is the appointment with the
    patient's name (the phone, gender and dob columns are not modelled). *)
Definition get_doctor_appointments (did : nat) : M (list (appointment * string)) :=
  query (fun d =>
    sort_by newer_request
      (flat_map (fun a =>
         if Nat.eqb (doctor_id a) did then
           match find_user d (patient_id a) with
           | Some u => [(a, full_name u)]
           | None => []
           end
         else []) (appointments d))).

(** ** [get_patient_appointments] and the patient's appointment list *)

(** A [doctor_details] row ([user_id] is UNIQUE).  No function of this
    model writes the table, so the queries that join it take it as an
    argument. *)
Record doctor_detail := mk_doctor_detail {
  dd_user_id : nat; specialization : string }.

Definition find_doctor_detail (dds : list doctor_detail) (id : nat) : option doctor_detail :=
  find (fun x => Nat.eqb (dd_user_id x) id) dds.

(** [a.*, u.full_name as doctor_name, d.specialization] (the fee column is
    not modelled) *)
Record patient_appointment_row := mk_patient_appointment_row {
  pa_appointment : appointment; doctor_name_of : string; pa_specialization : string }.

(** [ORDER BY a.date DESC, a.time DESC] *)
Definition later_slot (x y : patient_appointment_row) : bool :=
  String.ltb (date (pa_appointment y)) (date (pa_appointment x))
  || (String.eqb (date (pa_appointment y)) (date (pa_appointment x))
      && String.ltb (time (pa_appointment y)) (time (pa_appointment x))).

(** [FROM appointments a JOIN users u ON a.doctor_id = u.id
     JOIN doctor_details d ON u.id = d.user_id WHERE a.patient_id = ?] *)
Definition get_patient_appointments (dds : list doctor_detail) (pid : nat)
    : M (list patient_appointment_row) :=
  query (fun d =>
    sort_by later_slot
      (flat_map (fun a =>
         if Nat.eqb (patient_id a) pid then
           match find_user d (doctor_id a), find_doctor_detail dds (doctor_id a) with
           | Some u, Some dd => [mk_patient_appointment_row a (full_name u) (specialization dd)]
           | _, _ => []
           end
         else []) (appointments d))).

(** GET [/patient/appointments]: the list the view renders, without the
    REJECTED appointments. *)
Definition patient_appointments_view (dds : list doctor_detail) (uid : nat)
    : M (list patient_appointment_row) :=
  all_appointments <- get_patient_appointments dds uid ;;
  ret (filter (fun apt => negb (status_eqb (status (pa_appointment apt)) REJECTED))
              all_appointments).

(** ** POST [/patient/book-appointment] *)

(** The POSTed form: [request.form.get(...)] of each field *)
Record booking_form := mk_booking_form {
  b_doctor_id : option string; b_date : option string; b_time : option string;
  b_symptoms : option string }.

(** Python truthiness of an optional form field *)
Definition truthy (o : option string) : bool :=
  match o with Some s => negb (String.eqb s EmptyString) | None => false end.

Definition is_digit (c : ascii) : bool :=
  Nat.leb 48 (nat_of_ascii c) && Nat.leb (nat_of_ascii c) 57.

(** Decimal digits, possibly grouped by single underscores;
    [after_digit] tells whether the previous character was a digit. *)
Fixpoint int_digits (acc : Z) (after_digit : bool) (l : list ascii) : option Z :=
  match l with
  | [] => if after_digit then Some acc else None
  | c :: r =>
      if is_digit c then int_digits (acc * 10 + Z.of_nat (nat_of_ascii c - 48)) true r
      else if Ascii.eqb c "_"%char && after_digit then int_digits acc false r
      else None
  end.

(** Python's [int(s)] on ASCII text: surrounding whitespace, an optional
    sign, then the digits; [None] is the ValueError. *)
Definition py_int (s : string) : option Z :=
  match list_ascii_of_string (strip s) with
  | c :: r =>
      if Ascii.eqb c "+"%char then int_digits 0 false r
      else if Ascii.eqb c "-"%char then option_map Z.opp (int_digits 0 false r)
      else int_digits 0 false (c :: r)
  | [] => None
  end.

Definition book_appointment (sess : session) (form : booking_form) : M response :=
  flask_route (role_required PATIENT sess (fun uid =>
    let symptoms := strip (get_or_empty (b_symptoms form)) in
    if negb (truthy (b_doctor_id form)) || negb (truthy (b_date form))
       || negb (truthy (b_time form)) then
      ret (Redirect "danger" "patient.book_appointment")
    else
      try_except
        (match py_int (get_or_empty (b_doctor_id form)) with
         | None => raise ValueError
         | Some z =>
             _ <- (if z <? 0 then
                     (* no users row has a negative id: the INSERT fails its
                        FOREIGN KEY check *)
                     execute_write (fun _ => Err IntegrityError)
                   else
                     create_appointment uid (Z.to_nat z)
                       (get_or_empty (b_date form)) (get_or_empty (b_time form))
                       (if String.eqb symptoms EmptyString then None else Some symptoms)) ;;
             ret (Redirect "success" "patient.appointments")
         end)
        (fun _ => ret (Redirect "danger" "patient.book_appointment")))).

(** ** A small clinic used by the concrete checks below *)

Definition alice : user := mk_user 1 "Alice" "alice@example.com" PATIENT.
Definition bob : user := mk_user 2 "Bob" "bob@example.com" DOCTOR.
Definition carol : user := mk_user 3 "Carol" "carol@example.com" DOCTOR.
Definition dan : user := mk_user 4 "Dan" "dan@example.com" PATIENT.

Definition day : Z := 86400.
Definition clinic_now : Z := 100 * day.

(** Appointment 1: Alice with Bob, COMPLETED; appointment 2: Alice with
    Bob, PENDING, dated later. *)
Definition clinic : db :=
  mk_db [alice; bob; carol; dan]
    [mk_patient_detail 1 "O+"; mk_patient_detail 4 "A-"]
    [mk_appointment 1 1 2 "2025-01-10" "10:00" None COMPLETED (90 * day);
     mk_appointment 2 1 2 "2025-02-01" "11:00" None PENDING (95 * day)]
    [] [mk_upload 1 1 "rx.jpg"]
    [mk_notification 1 1 APPOINTMENT_ACCEPTED "accepted" (Some "/patient/appointments"%string)
       true (Some 1%nat) None (99 * day)]
    2 0 1 clinic_now.

Definition appt1 : appointment :=
  mk_appointment 1 1 2 "2025-01-10" "10:00" None COMPLETED (90 * day).
Definition appt2 : appointment :=
  mk_appointment 2 1 2 "2025-02-01" "11:00" None PENDING (95 * day).

Definition bob_session : session := mk_session (Some 2%nat) (Some DOCTOR) (Some "Bob"%string).
Definition carol_session : session := mk_session (Some 3%nat) (Some DOCTOR) (Some "Carol"%string).
Definition alice_session : session := mk_session (Some 1%nat) (Some PATIENT) (Some "Alice"%string).
Definition dan_session : session := mk_session (Some 4%nat) (Some PATIENT) (Some "Dan"%string).

Definition flu_form : prescription_form :=
  mk_prescription_form (Some "Flu"%string) None
    ["  "%string; "Paracetamol"%string] ["5mg"%string; " "%string]
    ["3 days"%string; "2 days"%string].

Definition blank_form : prescription_form :=
  mk_prescription_form (Some "   "%string) None
    ["Paracetamol"%string] ["5mg"%string] ["3 days"%string].

Definition status_of (d : db) (aid : nat) : option appointment_status :=
  option_map status (find_appointment d aid).

(** [s2] is reached from [s1] by [create_notification] calls only. *)
Inductive creates_only : st -> st -> Prop :=
| creates_none s : creates_only s s
| creates_more s1 s2 s3 uid ty msg lnk aid pid r :
    creates_only s1 s2 ->
    create_notification uid ty msg lnk aid pid s2 = (r, s3) ->
    creates_only s1 s3.

(** [t] occurs in [s] *)
Definition contains (s t : string) : Prop := exists a b, s = (a ++ t ++ b)%string.

(** [ORDER BY created_at DESC]: newest first *)
Definition newest_first (x y : notification) : Prop := n_created_at y <= n_created_at x.

(** [ORDER BY a.date DESC, a.time DESC] as a relation between neighbours *)
Definition slot_not_before (x y : patient_appointment_row) : Prop :=
  String.ltb (date (pa_appointment y)) (date (pa_appointment x)) = true \/
  (date (pa_appointment y) = date (pa_appointment x) /\
   String.leb (time (pa_appointment y)) (time (pa_appointment x)) = true).

(** The FOREIGN KEY constraints of models.py: every user, appointment and
    prescription a row refers to exists (a NULL reference is allowed) *)
Definition foreign_keys_hold (d : db) : bool :=
  forallb (fun p => user_exists d (pd_user_id p)) (patient_details d) &&
  forallb (fun a => user_exists d (patient_id a) && user_exists d (doctor_id a))
          (appointments d) &&
  forallb (fun p => user_exists d (p_doctor_id p) && user_exists d (p_patient_id p)
                    && opt_ref (appointment_exists d) (p_appointment_id p))
          (prescriptions d) &&
  forallb (fun u => user_exists d (up_patient_id u)) (uploads d) &&
  forallb (fun n => user_exists d (n_user_id n)
                    && opt_ref (appointment_exists d) (n_appointment_id n)
                    && opt_ref (prescription_exists d) (n_prescription_id n))
          (notifications d).

(** [m] keeps the database property [P] *)
Definition keeps {A} (P : db -> bool) (m : M A) : Prop :=
  forall s, P (db_of s) = true -> P (db_of (snd (m s))) = true.

(** Booking forms posted by Alice *)
Definition booking_form_demo : booking_form :=
  mk_booking_form (Some " 2 "%string) (Some "2025-03-01"%string) (Some "09:00"%string)
    (Some "  cough "%string).
Definition booking_form_bad : booking_form :=
  mk_booking_form (Some "Bob"%string) (Some "2025-03-01"%string) (Some "09:00"%string) None.

(** * Proofs *)

(** ** Concrete behaviour of the model on the sample clinic *)

Example roster_of_bob :
  fst (get_doctor_patients 2 (mk_st clinic [])) =
  Ok [mk_roster_row 1 "Alice" 1 "2025-01-10" 1].
Proof. vm_compute. reflexivity. Qed.

Example strip_example : strip "  a b  " = "a b"%string /\ nonblank " " = false.
Proof. split; reflexivity. Qed.

(** ** Lemmas on rows and statements *)

Lemma find_update_status (l : list appointment) aid s a :
  find (fun x => Nat.eqb (a_id x) aid) l = Some a ->
  find (fun x => Nat.eqb (a_id x) aid)
       (map (fun x => if Nat.eqb (a_id x) aid then with_status x s else x) l)
  = Some (with_status a s).
Proof.
  induction l as [|x l IH]; simpl; [discriminate|].
  destruct (Nat.eqb (a_id x) aid) eqn:E; simpl.
  - rewrite E. intros [= <-]. reflexivity.
  - rewrite E. exact IH.
Qed.

Lemma update_status_absent (l : list appointment) aid s :
  find (fun x => Nat.eqb (a_id x) aid) l = None ->
  map (fun x => if Nat.eqb (a_id x) aid then with_status x s else x) l = l.
Proof.
  induction l as [|x l IH]; simpl; [reflexivity|].
  destruct (Nat.eqb (a_id x) aid); [discriminate|].
  intros H. f_equal. exact (IH H).
Qed.

Lemma find_none_filter {A} (p : A -> bool) (l : list A) :
  find p l = None -> filter p l = [].
Proof.
  induction l as [|x l IH]; simpl; [reflexivity|].
  destruct (p x); [discriminate|exact IH].
Qed.

Lemma find_none_filter_negb {A} (p : A -> bool) (l : list A) :
  find p l = None -> filter (fun x => negb (p x)) l = l.
Proof.
  induction l as [|x l IH]; simpl; [reflexivity|].
  destruct (p x); simpl; [discriminate|].
  intros H. f_equal. exact (IH H).
Qed.

Lemma find_filter_negb {A} (p : A -> bool) (l : list A) :
  find p (filter (fun x => negb (p x)) l) = None.
Proof.
  induction l as [|x l IH]; simpl; [reflexivity|].
  destruct (p x) eqn:E; simpl; [exact IH|].
  rewrite E. exact IH.
Qed.

Lemma filter_all_true {A} (p : A -> bool) (l : list A) :
  (forall x, p x = true) -> filter p l = l.
Proof.
  intros H. induction l as [|x l IH]; simpl; [reflexivity|].
  rewrite H. f_equal. exact IH.
Qed.

Lemma map_all_id {A} (f : A -> A) (l : list A) :
  (forall x, f x = x) -> map f l = l.
Proof.
  intros H. induction l as [|x l IH]; simpl; [reflexivity|].
  rewrite H. f_equal. exact IH.
Qed.

Lemma insert_notification_appointments uid ty msg lnk aid pid d d' r :
  insert_notification_row uid ty msg lnk aid pid d = Ok (d', r) ->
  appointments d' = appointments d.
Proof.
  unfold insert_notification_row.
  destruct (_ && _ && _); intros H; inversion H; reflexivity.
Qed.

Lemma status_of_appointments d d' aid :
  appointments d' = appointments d -> status_of d' aid = status_of d aid.
Proof. unfold status_of, find_appointment. intros ->. reflexivity. Qed.

Lemma status_of_update d aid s a :
  find_appointment d aid = Some a ->
  status_of (set_appointments d
    (map (fun x => if Nat.eqb (a_id x) aid then with_status x s else x)
         (appointments d))) aid = Some s.
Proof.
  unfold status_of, find_appointment. simpl. intros H.
  rewrite (find_update_status _ _ s _ H). reflexivity.
Qed.

Lemma set_appointments_same d : set_appointments d (appointments d) = d.
Proof. destruct d; reflexivity. Qed.

Lemma set_notifications_same d : set_notifications d (notifications d) = d.
Proof. destruct d; reflexivity. Qed.

Lemma set_prescriptions_same d : set_prescriptions d (prescriptions d) = d.
Proof. destruct d; reflexivity. Qed.

(** A failing statement is rolled back on its own. *)
Lemma execute_write_fault f s rest :
  faults s = true :: rest ->
  execute_write f s = (Err OperationalError, mk_st (db_of s) rest).
Proof. intros H. unfold execute_write, next_fault. rewrite H. reflexivity. Qed.

(** ** [role_required]: a caller without the role changes nothing *)

Lemma role_required_denied r sess view s :
  s_role sess <> Some r ->
  flask_route (role_required r sess view) s = (Ok (
    match s_user_id sess with
    | None => Redirect "warning" "auth.login"
    | Some _ => Redirect "danger" "home"
    end), s).
Proof.
  intros H. unfold flask_route, role_required, try_except.
  destruct (s_user_id sess); [|reflexivity].
  destruct (s_role sess) as [r'|]; [|reflexivity].
  destruct r, r'; simpl; try reflexivity; congruence.
Qed.

(** ** The doctor's transitions on an existing appointment *)

Ltac enter_doctor_route Hu Hr :=
  unfold flask_route, role_required; rewrite Hu, Hr; simpl;
  unfold try_except, bind, query, update_appointment_status, execute_write,
    next_fault.

Lemma accept_sets_confirmed sess uid aid s a :
  s_user_id sess = Some uid -> s_role sess = Some DOCTOR -> faults s = [] ->
  find_appointment (db_of s) aid = Some a ->
  status_of (db_of (snd (accept_appointment sess aid s))) aid = Some CONFIRMED.
Proof.
  intros Hu Hr Hf Ha. unfold accept_appointment.
  enter_doctor_route Hu Hr. rewrite Hf, Ha. simpl.
  unfold create_notification, execute_write, next_fault. simpl.
  destruct (insert_notification_row _ _ _ _ _ _ _) as [[d' r]|e] eqn:E; simpl;
    [erewrite status_of_appointments by
       exact (insert_notification_appointments _ _ _ _ _ _ _ _ _ E)|];
    exact (status_of_update _ _ _ _ Ha).
Qed.

Lemma reject_sets_rejected sess uid aid s a :
  s_user_id sess = Some uid -> s_role sess = Some DOCTOR -> faults s = [] ->
  find_appointment (db_of s) aid = Some a ->
  status_of (db_of (snd (reject_appointment sess aid s))) aid = Some REJECTED.
Proof.
  intros Hu Hr Hf Ha. unfold reject_appointment.
  enter_doctor_route Hu Hr. rewrite Hf, Ha. simpl.
  unfold create_notification, execute_write, next_fault. simpl.
  destruct (insert_notification_row _ _ _ _ _ _ _) as [[d' r]|e] eqn:E; simpl;
    [erewrite status_of_appointments by
       exact (insert_notification_appointments _ _ _ _ _ _ _ _ _ E)|];
    exact (status_of_update _ _ _ _ Ha).
Qed.

Lemma complete_sets_completed sess uid aid s a :
  s_user_id sess = Some uid -> s_role sess = Some DOCTOR -> faults s = [] ->
  find_appointment (db_of s) aid = Some a ->
  status_of (db_of (snd (complete_appointment sess aid s))) aid = Some COMPLETED.
Proof.
  intros Hu Hr Hf Ha. unfold complete_appointment.
  enter_doctor_route Hu Hr. rewrite Hf. simpl.
  exact (status_of_update _ _ _ _ Ha).
Qed.
Lemma existsb_filter_negb {A} (p : A -> bool) (l : list A) :
  existsb p (filter (fun x => negb (p x)) l) = false.
Proof.
  induction l as [|x l IH]; simpl; [reflexivity|].
  destruct (p x) eqn:E; simpl; [exact IH|].
  rewrite E. exact IH.
Qed.
Ltac enter_patient_route Hu Hr :=
  unfold flask_route, role_required; rewrite Hu, Hr; simpl;
  unfold try_except, bind, cancel_appointment, delete_uploaded_prescription,
    execute_write, next_fault.

Lemma cancel_removes sess uid aid s :
  s_user_id sess = Some uid -> s_role sess = Some PATIENT -> faults s = [] ->
  find_appointment (db_of (snd (cancel_appointment_route sess aid s))) aid = None.
Proof.
  intros Hu Hr Hf. unfold cancel_appointment_route.
  enter_patient_route Hu Hr. rewrite Hf. simpl.
  unfold find_appointment. simpl. apply find_filter_negb.
Qed.

Lemma delete_upload_removes sess uid upid s :
  s_user_id sess = Some uid -> s_role sess = Some PATIENT -> faults s = [] ->
  existsb (fun u => Nat.eqb (up_id u) upid)
    (uploads (db_of (snd (delete_uploaded_prescription_route sess upid s)))) = false.
Proof.
  intros Hu Hr Hf. unfold delete_uploaded_prescription_route.
  enter_patient_route Hu Hr. rewrite Hf. simpl.
  apply existsb_filter_negb.
Qed.

Lemma accept_absent sess uid aid s :
  s_user_id sess = Some uid -> s_role sess = Some DOCTOR -> faults s = [] ->
  find_appointment (db_of s) aid = None ->
  accept_appointment sess aid s = (Ok (Redirect "danger" "doctor.appointments"), s).
Proof.
  destruct s as [d f]. simpl. intros Hu Hr Hf Ha. subst f.
  unfold accept_appointment. enter_doctor_route Hu Hr. cbn [db_of faults]. rewrite Ha. simpl.
  rewrite (update_status_absent _ _ _ Ha), set_appointments_same. reflexivity.
Qed.

Lemma cancel_absent sess uid aid s :
  s_user_id sess = Some uid -> s_role sess = Some PATIENT -> faults s = [] ->
  find_appointment (db_of s) aid = None ->
  cancel_appointment_route sess aid s = (Ok (Redirect "success" "patient.appointments"), s).
Proof.
  destruct s as [d f]. simpl. intros Hu Hr Hf Ha. subst f.
  unfold cancel_appointment_route. enter_patient_route Hu Hr. simpl.
  unfold find_appointment in Ha.
  rewrite (find_none_filter _ _ Ha), (find_none_filter_negb _ _ Ha). simpl.
  rewrite set_appointments_same,
    filter_all_true by (intros n; destruct (n_appointment_id n); reflexivity).
  rewrite set_notifications_same,
    map_all_id by (intros p; destruct (p_appointment_id p); reflexivity).
  rewrite set_prescriptions_same. reflexivity.
Qed.

Lemma write_prescription_unresolved sess uid pid aid form s :
  s_user_id sess = Some uid -> s_role sess = Some DOCTOR -> faults s = [] ->
  user_exists (db_of s) pid = false \/ appointment_exists (db_of s) aid = false ->
  write_prescription sess pid aid form s =
    (Ok (if String.eqb (strip (get_or_empty (f_diagnosis form))) EmptyString
         then Redirect "error" "doctor.write_prescription" else InternalServerError), s).
Proof.
  destruct s as [d f]. cbn [faults db_of]. intros Hu Hr Hf Hno. subst f.
  unfold write_prescription, flask_route, role_required. rewrite Hu, Hr.
  cbn [role_eqb]. cbv zeta.
  destruct (String.eqb (strip (get_or_empty (f_diagnosis form))) EmptyString);
    [reflexivity|].
  unfold try_except, bind, ret, create_prescription, execute_write, next_fault.
  cbn [faults db_of]. unfold insert_prescription_row. cbn [opt_ref].
  replace (user_exists d uid && user_exists d pid && appointment_exists d aid) with false
    by (destruct Hno as [H|H]; rewrite H;
        [rewrite andb_false_r | rewrite andb_false_r]; reflexivity).
  reflexivity.
Qed.

Lemma delete_upload_absent sess uid upid s :
  s_user_id sess = Some uid -> s_role sess = Some PATIENT -> faults s = [] ->
  find (fun u => Nat.eqb (up_id u) upid) (uploads (db_of s)) = None ->
  delete_uploaded_prescription_route sess upid s
    = (Ok (Redirect "success" "patient.prescriptions"), s).
Proof.
  destruct s as [d f]. cbn [faults db_of]. intros Hu Hr Hf Hu0. subst f.
  unfold delete_uploaded_prescription_route. enter_patient_route Hu Hr. simpl.
  rewrite (find_none_filter_negb _ _ Hu0). destruct d; reflexivity.
Qed.

Lemma reject_absent sess uid aid s :
  s_user_id sess = Some uid -> s_role sess = Some DOCTOR -> faults s = [] ->
  find_appointment (db_of s) aid = None ->
  reject_appointment sess aid s = (Ok (Redirect "danger" "doctor.appointments"), s).
Proof.
  destruct s as [d f]. simpl. intros Hu Hr Hf Ha. subst f.
  unfold reject_appointment. enter_doctor_route Hu Hr. cbn [db_of faults].
  rewrite Ha. simpl.
  rewrite (update_status_absent _ _ _ Ha), set_appointments_same. reflexivity.
Qed.

Lemma complete_absent sess uid aid s :
  s_user_id sess = Some uid -> s_role sess = Some DOCTOR -> faults s = [] ->
  find_appointment (db_of s) aid = None ->
  complete_appointment sess aid s = (Ok (Redirect "success" "doctor.appointments"), s).
Proof.
  destruct s as [d f]. simpl. intros Hu Hr Hf Ha. subst f.
  unfold complete_appointment. enter_doctor_route Hu Hr. simpl.
  rewrite (update_status_absent _ _ _ Ha), set_appointments_same. reflexivity.
Qed.

(** The status update of [accept_appointment] is committed before the
    notification insert runs; a failing insert does not undo it. *)
Lemma accept_notification_fault sess uid aid s a :
  s_user_id sess = Some uid -> s_role sess = Some DOCTOR ->
  faults s = [false; true] -> find_appointment (db_of s) aid = Some a ->
  fst (accept_appointment sess aid s) = Ok (Redirect "danger" "doctor.appointments") /\
  status_of (db_of (snd (accept_appointment sess aid s))) aid = Some CONFIRMED /\
  notifications (db_of (snd (accept_appointment sess aid s))) = notifications (db_of s).
Proof.
  intros Hu Hr Hf Ha. unfold accept_appointment.
  enter_doctor_route Hu Hr. rewrite Hf, Ha. simpl.
  split; [reflexivity|split; [|reflexivity]].
  exact (status_of_update _ _ _ _ Ha).
Qed.

(** ** C1: appointment status transitions *)

(** C1 (counterexample): appointment 1 is COMPLETED, and accepting it
    moves it back to CONFIRMED; the status does leave COMPLETED. *)
Lemma C1_completed_reopened :
  status_of clinic 1 = Some COMPLETED /\
  status_of (db_of (snd (accept_appointment bob_session 1 (mk_st clinic [])))) 1
    = Some CONFIRMED.
Proof. split; vm_compute; reflexivity. Qed.

(** C1 (amended): accept, reject and complete do not check the current
    status.  On any existing appointment, whatever its status, they set it
    to CONFIRMED, REJECTED and COMPLETED respectively (the update statement
    commits before anything else of the request can fail). *)
Theorem C1_transitions_unguarded sess uid aid s a :
  s_user_id sess = Some uid -> s_role sess = Some DOCTOR -> faults s = [] ->
  find_appointment (db_of s) aid = Some a ->
  status_of (db_of (snd (accept_appointment sess aid s))) aid = Some CONFIRMED /\
  status_of (db_of (snd (reject_appointment sess aid s))) aid = Some REJECTED /\
  status_of (db_of (snd (complete_appointment sess aid s))) aid = Some COMPLETED.
Proof.
  intros Hu Hr Hf Ha. split; [|split].
  - exact (accept_sets_confirmed _ _ _ _ _ Hu Hr Hf Ha).
  - exact (reject_sets_rejected _ _ _ _ _ Hu Hr Hf Ha).
  - exact (complete_sets_completed _ _ _ _ _ Hu Hr Hf Ha).
Qed.

Lemma C1_witness :
  status_of clinic 1 = Some COMPLETED /\
  (status_of (db_of (snd (accept_appointment bob_session 1 (mk_st clinic [])))) 1
     = Some CONFIRMED /\
   status_of (db_of (snd (reject_appointment bob_session 1 (mk_st clinic [])))) 1
     = Some REJECTED /\
   status_of (db_of (snd (complete_appointment bob_session 1 (mk_st clinic [])))) 1
     = Some COMPLETED).
Proof.
  split; [reflexivity|].
  apply (C1_transitions_unguarded bob_session 2 1 (mk_st clinic []) appt1);
    reflexivity.
Defined.

(** ** C2: who may act on an appointment or an upload *)

(** C2 (counterexample): Carol (user 3) accepts appointment 2, which
    references doctor 2; Dan (user 4) cancels appointment 2, which
    references patient 1.  Both requests change the row. *)
Lemma C2_foreign_users_act :
  find_appointment clinic 2 = Some appt2 /\
  doctor_id appt2 = 2%nat /\ patient_id appt2 = 1%nat /\
  s_user_id carol_session = Some 3%nat /\ s_user_id dan_session = Some 4%nat /\
  status_of (db_of (snd (accept_appointment carol_session 2 (mk_st clinic [])))) 2
    = Some CONFIRMED /\
  find_appointment (db_of (snd (cancel_appointment_route dan_session 2 (mk_st clinic [])))) 2
    = None.
Proof. repeat split; vm_compute; reflexivity. Qed.

(** C2 (amended): the only gate is the session role.  A caller whose role is
    not DOCTOR changes nothing through accept, reject, complete or
    write-prescription, and a caller whose role is not PATIENT changes
    nothing through cancel or delete-upload; but every logged-in DOCTOR can
    transition any existing appointment, and every logged-in PATIENT can
    cancel any appointment and delete any upload, whoever they reference. *)
Theorem C2_role_is_the_only_gate :
  (forall sess aid s, s_role sess <> Some DOCTOR ->
     snd (accept_appointment sess aid s) = s /\
     snd (reject_appointment sess aid s) = s /\
     snd (complete_appointment sess aid s) = s /\
     (forall pid form, snd (write_prescription sess pid aid form s) = s)) /\
  (forall sess aid upid s, s_role sess <> Some PATIENT ->
     snd (cancel_appointment_route sess aid s) = s /\
     snd (delete_uploaded_prescription_route sess upid s) = s) /\
  (forall sess uid aid s a,
     s_user_id sess = Some uid -> s_role sess = Some DOCTOR -> faults s = [] ->
     find_appointment (db_of s) aid = Some a ->
     status_of (db_of (snd (accept_appointment sess aid s))) aid = Some CONFIRMED /\
     status_of (db_of (snd (reject_appointment sess aid s))) aid = Some REJECTED /\
     status_of (db_of (snd (complete_appointment sess aid s))) aid = Some COMPLETED) /\
  (forall sess uid aid upid s,
     s_user_id sess = Some uid -> s_role sess = Some PATIENT -> faults s = [] ->
     find_appointment (db_of (snd (cancel_appointment_route sess aid s))) aid = None /\
     existsb (fun u => Nat.eqb (up_id u) upid)
       (uploads (db_of (snd (delete_uploaded_prescription_route sess upid s)))) = false).
Proof.
  split; [|split; [|split]].
  - intros sess aid s H.
    unfold accept_appointment, reject_appointment, complete_appointment,
      write_prescription.
    rewrite !role_required_denied by exact H.
    repeat split. intros pid form. rewrite role_required_denied by exact H.
    reflexivity.
  - intros sess aid upid s H.
    unfold cancel_appointment_route, delete_uploaded_prescription_route.
    rewrite !role_required_denied by exact H. split; reflexivity.
  - intros sess uid aid s a Hu Hr Hf Ha. split; [|split].
    + exact (accept_sets_confirmed _ _ _ _ _ Hu Hr Hf Ha).
    + exact (reject_sets_rejected _ _ _ _ _ Hu Hr Hf Ha).
    + exact (complete_sets_completed _ _ _ _ _ Hu Hr Hf Ha).
  - intros sess uid aid upid s Hu Hr Hf. split.
    + exact (cancel_removes _ _ _ _ Hu Hr Hf).
    + exact (delete_upload_removes _ _ _ _ Hu Hr Hf).
Qed.

Lemma C2_witness :
  s_role alice_session <> Some DOCTOR /\
  snd (accept_appointment alice_session 2 (mk_st clinic [])) = mk_st clinic [] /\
  s_role bob_session <> Some PATIENT /\
  snd (cancel_appointment_route bob_session 2 (mk_st clinic [])) = mk_st clinic [] /\
  status_of (db_of (snd (complete_appointment carol_session 2 (mk_st clinic [])))) 2
    = Some COMPLETED /\
  find_appointment (db_of (snd (cancel_appointment_route dan_session 2 (mk_st clinic [])))) 2
    = None.
Proof.
  destruct C2_role_is_the_only_gate as [Hd [Hp [Ht Hc]]].
  split; [discriminate|]. split; [apply (Hd alice_session 2%nat); discriminate|].
  split; [discriminate|]. split; [apply (Hp bob_session 2%nat 1%nat); discriminate|].
  split.
  - apply (Ht carol_session 3%nat 2%nat (mk_st clinic []) appt2); reflexivity.
  - apply (Hc dan_session 4%nat 2%nat 1%nat (mk_st clinic [])); reflexivity.
Defined.

(** ** C5: appointment ids that do not resolve *)

(** C5 (counterexample): no appointment has id 7, yet completing it and
    cancelling it are both reported as a success. *)
Lemma C5_missing_id_reported_success :
  find_appointment clinic 7 = None /\
  complete_appointment bob_session 7 (mk_st clinic [])
    = (Ok (Redirect "success" "doctor.appointments"), mk_st clinic []) /\
  cancel_appointment_route alice_session 7 (mk_st clinic [])
    = (Ok (Redirect "success" "patient.appointments"), mk_st clinic []).
Proof. repeat split; vm_compute; reflexivity. Qed.

(** C5 (amended): when an appointment, patient or upload id given to a
    route does not resolve, no state changes, but only some routes report a
    failure.  Accept and reject report an error (their lookup result [None]
    is dereferenced after the status update matched no row); complete and
    cancel report success.  Writing a prescription for an unknown patient or
    appointment fails the INSERT's FOREIGN KEY check: with a non-blank
    diagnosis the IntegrityError escapes the view (HTTP 500), with a blank
    one the route gives its "Diagnosis is required" error redirect.
    Deleting an unknown upload reports success. *)
Theorem C5_missing_appointment_id sd ud sp up aid s :
  s_user_id sd = Some ud -> s_role sd = Some DOCTOR ->
  s_user_id sp = Some up -> s_role sp = Some PATIENT ->
  faults s = [] ->
  (find_appointment (db_of s) aid = None ->
   accept_appointment sd aid s = (Ok (Redirect "danger" "doctor.appointments"), s) /\
   reject_appointment sd aid s = (Ok (Redirect "danger" "doctor.appointments"), s) /\
   complete_appointment sd aid s = (Ok (Redirect "success" "doctor.appointments"), s) /\
   cancel_appointment_route sp aid s = (Ok (Redirect "success" "patient.appointments"), s)) /\
  (forall pid form,
   user_exists (db_of s) pid = false \/ appointment_exists (db_of s) aid = false ->
   write_prescription sd pid aid form s =
     (Ok (if String.eqb (strip (get_or_empty (f_diagnosis form))) EmptyString
          then Redirect "error" "doctor.write_prescription" else InternalServerError), s)) /\
  (forall upid,
   find (fun u => Nat.eqb (up_id u) upid) (uploads (db_of s)) = None ->
   delete_uploaded_prescription_route sp upid s
     = (Ok (Redirect "success" "patient.prescriptions"), s)).
Proof.
  intros Hud Hrd Hup Hrp Hf. split; [intros Ha; repeat split|split].
  - exact (accept_absent _ _ _ _ Hud Hrd Hf Ha).
  - exact (reject_absent _ _ _ _ Hud Hrd Hf Ha).
  - exact (complete_absent _ _ _ _ Hud Hrd Hf Ha).
  - exact (cancel_absent _ _ _ _ Hup Hrp Hf Ha).
  - intros pid form Hno. exact (write_prescription_unresolved _ _ _ _ _ _ Hud Hrd Hf Hno).
  - intros upid Hno. exact (delete_upload_absent _ _ _ _ Hup Hrp Hf Hno).
Qed.

Lemma C5_witness :
  find_appointment clinic 7 = None /\
  (accept_appointment bob_session 7 (mk_st clinic [])
     = (Ok (Redirect "danger" "doctor.appointments"), mk_st clinic []) /\
   reject_appointment bob_session 7 (mk_st clinic [])
     = (Ok (Redirect "danger" "doctor.appointments"), mk_st clinic []) /\
   complete_appointment bob_session 7 (mk_st clinic [])
     = (Ok (Redirect "success" "doctor.appointments"), mk_st clinic []) /\
   cancel_appointment_route alice_session 7 (mk_st clinic [])
     = (Ok (Redirect "success" "patient.appointments"), mk_st clinic [])) /\
  user_exists clinic 9 = false /\
  write_prescription bob_session 9 7 flu_form (mk_st clinic [])
    = (Ok InternalServerError, mk_st clinic []) /\
  write_prescription bob_session 1 7 flu_form (mk_st clinic [])
    = (Ok InternalServerError, mk_st clinic []) /\
  delete_uploaded_prescription_route alice_session 5 (mk_st clinic [])
    = (Ok (Redirect "success" "patient.prescriptions"), mk_st clinic []).
Proof.
  destruct (C5_missing_appointment_id bob_session 2 alice_session 1 7 (mk_st clinic [])
              eq_refl eq_refl eq_refl eq_refl eq_refl) as [Ha [Hw Hd]].
  split; [reflexivity|]. split; [exact (Ha eq_refl)|].
  split; [reflexivity|]. split; [exact (Hw 9%nat flu_form (or_introl eq_refl))|].
  split; [exact (Hw 1%nat flu_form (or_intror eq_refl))|].
  exact (Hd 5%nat eq_refl).
Defined.

(** ** C6: what a failing write undoes *)

(** C6 (counterexample): accepting appointment 2 when the notification
    insert (the second write) fails: the request reports an error, but the
    CONFIRMED status written by the first statement stays committed. *)
Lemma C6_partial_commit :
  status_of clinic 2 = Some PENDING /\
  fst (accept_appointment bob_session 2 (mk_st clinic [false; true]))
    = Ok (Redirect "danger" "doctor.appointments") /\
  status_of (db_of (snd (accept_appointment bob_session 2 (mk_st clinic [false; true])))) 2
    = Some CONFIRMED /\
  notifications (db_of (snd (accept_appointment bob_session 2 (mk_st clinic [false; true]))))
    = notifications clinic.
Proof. repeat split; vm_compute; reflexivity. Qed.

(** C6 (amended): each write statement commits on its own.  A failing
    statement is rolled back alone, and the statements of the same operation
    that committed before it stay committed: when the notification insert
    of accept fails, the appointment stays CONFIRMED, no notification is
    written, and the request reports an error. *)
Theorem C6_statement_level_rollback :
  (forall f s rest, faults s = true :: rest ->
     execute_write f s = (Err OperationalError, mk_st (db_of s) rest)) /\
  (forall sess uid aid s a,
     s_user_id sess = Some uid -> s_role sess = Some DOCTOR ->
     faults s = [false; true] -> find_appointment (db_of s) aid = Some a ->
     fst (accept_appointment sess aid s) = Ok (Redirect "danger" "doctor.appointments") /\
     status_of (db_of (snd (accept_appointment sess aid s))) aid = Some CONFIRMED /\
     notifications (db_of (snd (accept_appointment sess aid s))) = notifications (db_of s)).
Proof.
  split.
  - exact execute_write_fault.
  - intros sess uid aid s a Hu Hr Hf Ha.
    exact (accept_notification_fault _ _ _ _ _ Hu Hr Hf Ha).
Qed.

Lemma C6_witness :
  faults (mk_st clinic [false; true]) = [false; true] /\
  fst (accept_appointment bob_session 2 (mk_st clinic [false; true]))
    = Ok (Redirect "danger" "doctor.appointments") /\
  status_of (db_of (snd (accept_appointment bob_session 2 (mk_st clinic [false; true])))) 2
    = Some CONFIRMED /\
  execute_write (fun d => Ok (d, 0%nat)) (mk_st clinic [true])
    = (Err OperationalError, mk_st clinic []).
Proof.
  destruct C6_statement_level_rollback as [Hw Ha].
  split; [reflexivity|].
  destruct (Ha bob_session 2%nat 2%nat (mk_st clinic [false; true]) appt2)
    as [H1 [H2 _]]; try reflexivity.
  split; [exact H1|]. split; [exact H2|].
  apply (Hw _ (mk_st clinic [true]) []). reflexivity.
Defined.

(** ** C3: creating an appointment *)

Lemma insert_appointment_row_ok pid did dt tm sym d d' r :
  insert_appointment_row pid did dt tm sym d = Ok (d', r) ->
  users d' = users d /\ now d' = now d /\ r = S (seq_appointments d) /\
  appointments d' = appointments d ++ [mk_appointment r pid did dt tm sym PENDING (now d)] /\
  notifications d' = notifications d /\
  user_exists d pid = true /\ user_exists d did = true.
Proof.
  unfold insert_appointment_row.
  destruct (user_exists d pid) eqn:Ep, (user_exists d did) eqn:Ed; simpl;
    intros H; inversion H; subst; auto 10.
Qed.
Lemma insert_notification_row_ok uid ty msg lnk aid pid d d' r :
  insert_notification_row uid ty msg lnk aid pid d = Ok (d', r) ->
  users d' = users d /\ appointments d' = appointments d /\
  notifications d' = notifications d ++ [mk_notification r uid ty msg lnk false aid pid (now d)].
Proof.
  unfold insert_notification_row.
  destruct (_ && _ && _); intros H; inversion H; subst; auto.
Qed.
Lemma user_exists_find d id :
  user_exists d id = true -> exists u, find_user d id = Some u.
Proof.
  unfold user_exists, find_user. induction (users d) as [|x l IH]; simpl; [discriminate|].
  destruct (Nat.eqb (u_id x) id); [eauto|exact IH].
Qed.
Lemma str_append_assoc (a b c : string) : ((a ++ b) ++ c)%string = (a ++ b ++ c)%string.
Proof. induction a as [|ch a IH]; simpl; [reflexivity|]. rewrite IH. reflexivity. Qed.
Lemma str_append_empty_r (a : string) : (a ++ EmptyString)%string = a.
Proof. induction a as [|ch a IH]; simpl; [reflexivity|]. rewrite IH. reflexivity. Qed.
Lemma requested_message_contains name dt tm :
  contains (requested_message name dt tm) name /\
  contains (requested_message name dt tm) dt /\
  contains (requested_message name dt tm) tm.
Proof.
  unfold contains, requested_message. split; [|split].
  - exists EmptyString. eexists. reflexivity.
  - exists (name ++ " has requested an appointment for ")%string, (" at " ++ tm)%string.
    rewrite str_append_assoc. reflexivity.
  - exists (name ++ " has requested an appointment for " ++ dt ++ " at ")%string, EmptyString.
    rewrite str_append_empty_r, !str_append_assoc. reflexivity.
Qed.
Lemma create_appointment_effect pid did dt tm sym s aid s' :
  create_appointment pid did dt tm sym s = (Ok aid, s') ->
  exists u n,
    find_user (db_of s) pid = Some u /\
    appointments (db_of s') =
      appointments (db_of s) ++ [mk_appointment aid pid did dt tm sym PENDING (now (db_of s))] /\
    notifications (db_of s') = notifications (db_of s) ++ [n] /\
    n_user_id n = did /\ n_type n = APPOINTMENT_REQUESTED /\
    message n = requested_message (full_name u) dt tm /\
    link n = Some "/doctor/appointments"%string.
Proof.
  unfold create_appointment, bind, query, ret, create_notification, execute_write.
  destruct (next_fault s) as [[|] rest]; [discriminate|].
  destruct (insert_appointment_row pid did dt tm sym (db_of s)) as [[d1 id]|e] eqn:E1;
    [|discriminate].
  destruct (insert_appointment_row_ok _ _ _ _ _ _ _ _ E1)
    as [Hu1 [Hn1 [Hid [Ha1 [Hno1 [Ep _]]]]]].
  destruct (user_exists_find _ _ Ep) as [u Hu].
  cbn [db_of]. unfold find_user in *. rewrite Hu1, Hu. cbn [option_map].
  subst id. cbn [Nat.ltb Nat.leb]. unfold next_fault. cbn [faults db_of].
  destruct rest as [|[|] rest]; [| discriminate |];
  (destruct (insert_notification_row _ _ _ _ _ _ _) as [[d2 nid]|e] eqn:E2; [|discriminate]);
  intros H; inversion H; subst; clear H;
  destruct (insert_notification_row_ok _ _ _ _ _ _ _ _ _ E2) as [_ [Ha2 Hn2]];
  exists u; eexists; cbn [db_of];
  rewrite Ha2, Hn2, Ha1, Hno1, Hn1; repeat split; reflexivity.
Qed.
Lemma create_appointment_succeeds pid did dt tm sym s :
  faults s = [] -> user_exists (db_of s) pid = true -> user_exists (db_of s) did = true ->
  exists aid s', create_appointment pid did dt tm sym s = (Ok aid, s').
Proof.
  intros Hf Ep Ed.
  assert (exists d1 id, insert_appointment_row pid did dt tm sym (db_of s) = Ok (d1, id))
    as [d1 [id E1]].
  { unfold insert_appointment_row. rewrite Ep, Ed. simpl. eauto. }
  destruct (insert_appointment_row_ok _ _ _ _ _ _ _ _ E1)
    as [Hu1 [Hn1 [Hid [Ha1 [Hno1 _]]]]].
  destruct (user_exists_find _ _ Ep) as [u Hu].
  assert (Hne : user_exists d1 did = true) by (unfold user_exists; rewrite Hu1; exact Ed).
  assert (Hae : appointment_exists d1 id = true).
  { unfold appointment_exists. rewrite Ha1, existsb_app. simpl.
    rewrite Nat.eqb_refl. apply orb_true_r. }
  unfold create_appointment, bind, query, ret, create_notification, execute_write,
    next_fault.
  rewrite Hf, E1. cbn [db_of faults]. unfold find_user in *. rewrite Hu1, Hu.
  cbn [option_map]. subst id. cbn [Nat.ltb Nat.leb].
  unfold insert_notification_row. cbn [db_of faults opt_ref]. rewrite Hne, Hae. simpl. eauto.
Qed.

(** C3: a successful [create_appointment] appends exactly one appointment
    row, in state PENDING, and exactly one APPOINTMENT_REQUESTED
    notification for the doctor whose message contains the patient's name,
    the date and the time and whose link is the doctor's appointment list;
    it succeeds whenever both users exist and storage does not fail. *)
Theorem C3_create_appointment_pending_and_notified :
  (forall pid did dt tm sym s aid s',
     create_appointment pid did dt tm sym s = (Ok aid, s') ->
     exists u n,
       find_user (db_of s) pid = Some u /\
       appointments (db_of s') =
         appointments (db_of s) ++ [mk_appointment aid pid did dt tm sym PENDING (now (db_of s))] /\
       notifications (db_of s') = notifications (db_of s) ++ [n] /\
       n_user_id n = did /\ n_type n = APPOINTMENT_REQUESTED /\
       contains (message n) (full_name u) /\ contains (message n) dt /\
       contains (message n) tm /\ link n = Some "/doctor/appointments"%string) /\
  (forall pid did dt tm sym s,
     faults s = [] -> user_exists (db_of s) pid = true -> user_exists (db_of s) did = true ->
     exists aid s', create_appointment pid did dt tm sym s = (Ok aid, s')).
Proof.
  split.
  - intros pid did dt tm sym s aid s' H.
    destruct (create_appointment_effect _ _ _ _ _ _ _ _ H)
      as [u [n [Hu [Ha [Hn [Hd [Ht [Hm Hl]]]]]]]].
    destruct (requested_message_contains (full_name u) dt tm) as [C1 [C2 C3]].
    exists u, n. rewrite Hm. repeat split; assumption.
  - exact create_appointment_succeeds.
Qed.

Lemma C3_witness :
  exists u n,
    find_user clinic 4 = Some u /\
    appointments (db_of (snd (create_appointment 4 3 "2025-03-01" "09:00" None (mk_st clinic []))))
      = appointments clinic ++ [mk_appointment 3 4 3 "2025-03-01" "09:00" None PENDING clinic_now] /\
    notifications (db_of (snd (create_appointment 4 3 "2025-03-01" "09:00" None (mk_st clinic []))))
      = notifications clinic ++ [n] /\
    n_user_id n = 3%nat /\ n_type n = APPOINTMENT_REQUESTED /\
    contains (message n) (full_name u) /\ contains (message n) "2025-03-01"%string /\
    contains (message n) "09:00"%string /\ link n = Some "/doctor/appointments"%string.
Proof.
  apply (proj1 C3_create_appointment_pending_and_notified 4%nat 3%nat
           "2025-03-01"%string "09:00"%string None (mk_st clinic []) 3%nat
           (snd (create_appointment 4 3 "2025-03-01" "09:00" None (mk_st clinic [])))).
  vm_compute. reflexivity.
Defined.

(** ** C4 and C10: writing a prescription *)

Lemma zip3_firstn {A B C} (xs : list A) (ys : list B) (zs : list C) :
  let m := Nat.min (length xs) (Nat.min (length ys) (length zs)) in
  zip3 xs ys zs = zip3 (firstn m xs) (firstn m ys) (firstn m zs) /\
  length (zip3 xs ys zs) = m.
Proof.
  revert ys zs. induction xs as [|x xs IH]; intros [|y ys] [|z zs]; simpl; auto.
  destruct (IH ys zs) as [H1 H2]. rewrite <- H1, H2. auto.
Qed.

Lemma collect_loop_filter rows :
  collect_loop rows =
  map (fun '(n, ds, du) => mk_medicine (strip n) (strip ds) (strip du))
      (filter (fun '(n, ds, du) => nonblank n && nonblank ds && nonblank du) rows).
Proof.
  induction rows as [|[[n ds] du] rows IH]; simpl; [reflexivity|].
  destruct (nonblank n && nonblank ds && nonblank du); simpl; rewrite IH; reflexivity.
Qed.

Lemma write_prescription_blank sess uid pid aid form s :
  s_user_id sess = Some uid -> s_role sess = Some DOCTOR ->
  strip (get_or_empty (f_diagnosis form)) = EmptyString ->
  write_prescription sess pid aid form s
    = (Ok (Redirect "error" "doctor.write_prescription"), s).
Proof.
  intros Hu Hr Hd. unfold write_prescription, flask_route, role_required.
  rewrite Hu, Hr. simpl. rewrite Hd. reflexivity.
Qed.

Lemma write_prescription_stored sess uid pid aid form s :
  s_user_id sess = Some uid -> s_role sess = Some DOCTOR -> faults s = [] ->
  user_exists (db_of s) uid = true -> user_exists (db_of s) pid = true ->
  appointment_exists (db_of s) aid = true ->
  strip (get_or_empty (f_diagnosis form)) <> EmptyString ->
  fst (write_prescription sess pid aid form s) = Ok (Redirect "success" "doctor.appointments") /\
  exists p,
    prescriptions (db_of (snd (write_prescription sess pid aid form s)))
      = prescriptions (db_of s) ++ [p] /\
    p_doctor_id p = uid /\ p_patient_id p = pid /\ p_appointment_id p = Some aid /\
    diagnosis p = strip (get_or_empty (f_diagnosis form)) /\
    medicines_json p = collect_medicines (f_medicine_name form) (f_medicine_dosage form)
                         (f_medicine_duration form).
Proof.
  intros Hu Hr Hf Hdoc Hpat Happ Hd.
  apply String.eqb_neq in Hd.
  unfold write_prescription, flask_route, role_required.
  rewrite Hu, Hr. cbn [role_eqb]. cbv zeta. rewrite Hd.
  unfold try_except, bind, ret, create_prescription, create_notification,
    execute_write, next_fault.
  rewrite Hf. unfold insert_prescription_row. rewrite Hdoc, Hpat. cbn [opt_ref].
  rewrite Happ. cbn [andb db_of faults Nat.ltb Nat.leb].
  unfold insert_notification_row. cbn [db_of opt_ref].
  unfold user_exists, prescription_exists in *. cbn [users prescriptions].
  rewrite Hpat, existsb_app. cbn [existsb p_id]. rewrite Nat.eqb_refl, orb_true_r.
  simpl. split; [reflexivity|]. eexists. split; [reflexivity|].
  repeat split.
Qed.

(** C4: with a diagnosis that is empty after [strip], [write_prescription]
    changes nothing and reports an error; with a non-empty diagnosis (and
    existing doctor, patient and appointment rows, no storage failure) it
    succeeds and appends exactly one prescription whose medicine list is
    [collect_medicines] of the form, whatever the entries are; and
    [collect_medicines] keeps, in order and stripped, exactly the entries
    whose three fields are non-blank. *)
Theorem C4_prescription_diagnosis_and_medicines :
  (forall sess uid pid aid form s,
     s_user_id sess = Some uid -> s_role sess = Some DOCTOR ->
     strip (get_or_empty (f_diagnosis form)) = EmptyString ->
     write_prescription sess pid aid form s
       = (Ok (Redirect "error" "doctor.write_prescription"), s)) /\
  (forall sess uid pid aid form s,
     s_user_id sess = Some uid -> s_role sess = Some DOCTOR -> faults s = [] ->
     user_exists (db_of s) uid = true -> user_exists (db_of s) pid = true ->
     appointment_exists (db_of s) aid = true ->
     strip (get_or_empty (f_diagnosis form)) <> EmptyString ->
     fst (write_prescription sess pid aid form s)
       = Ok (Redirect "success" "doctor.appointments") /\
     exists p,
       prescriptions (db_of (snd (write_prescription sess pid aid form s)))
         = prescriptions (db_of s) ++ [p] /\
       p_doctor_id p = uid /\ p_patient_id p = pid /\ p_appointment_id p = Some aid /\
       diagnosis p = strip (get_or_empty (f_diagnosis form)) /\
       medicines_json p = collect_medicines (f_medicine_name form) (f_medicine_dosage form)
                            (f_medicine_duration form)) /\
  (forall names dosages durations,
     collect_medicines names dosages durations =
     map (fun '(n, ds, du) => mk_medicine (strip n) (strip ds) (strip du))
         (filter (fun '(n, ds, du) => nonblank n && nonblank ds && nonblank du)
                 (zip3 names dosages durations))).
Proof.
  split; [|split].
  - exact write_prescription_blank.
  - exact write_prescription_stored.
  - intros names dosages durations. apply collect_loop_filter.
Qed.

Lemma C4_witness :
  write_prescription bob_session 1 1 blank_form (mk_st clinic [])
    = (Ok (Redirect "error" "doctor.write_prescription"), mk_st clinic []) /\
  (fst (write_prescription bob_session 1 1 flu_form (mk_st clinic []))
     = Ok (Redirect "success" "doctor.appointments") /\
   exists p,
     prescriptions (db_of (snd (write_prescription bob_session 1 1 flu_form (mk_st clinic []))))
       = prescriptions clinic ++ [p] /\
     p_doctor_id p = 2%nat /\ p_patient_id p = 1%nat /\ p_appointment_id p = Some 1%nat /\
     diagnosis p = strip (get_or_empty (f_diagnosis flu_form)) /\
     medicines_json p = collect_medicines (f_medicine_name flu_form)
                          (f_medicine_dosage flu_form) (f_medicine_duration flu_form)) /\
  collect_medicines (f_medicine_name flu_form) (f_medicine_dosage flu_form)
    (f_medicine_duration flu_form) = [].
Proof.
  destruct C4_prescription_diagnosis_and_medicines as [Hb [Hs _]].
  split; [apply (Hb bob_session 2%nat); reflexivity|].
  split; [apply (Hs bob_session 2%nat 1%nat 1%nat flu_form (mk_st clinic []));
          try reflexivity; discriminate|].
  reflexivity.
Defined.

(** C10: the three medicine lists are zipped positionally and cut to the
    shortest one: the result only depends on the first [m] entries of each
    list, [m] the length of the shortest. *)
Theorem C10_medicine_lists_truncated (names dosages durations : list string) :
  let m := Nat.min (length names) (Nat.min (length dosages) (length durations)) in
  collect_medicines names dosages durations =
    collect_medicines (firstn m names) (firstn m dosages) (firstn m durations) /\
  length (zip3 names dosages durations) = m.
Proof.
  cbv zeta. unfold collect_medicines.
  destruct (zip3_firstn names dosages durations) as [H1 H2].
  rewrite <- H1. split; [reflexivity|exact H2].
Qed.

Example trailing_entry_dropped :
  collect_medicines ["Paracetamol"%string; "Ibuprofen"%string] ["5mg"%string]
    ["3 days"%string; "2 days"%string]
  = [mk_medicine "Paracetamol" "5mg" "3 days"].
Proof. reflexivity. Qed.

(** ** Sorting *)

Section SortFacts.
Context {A : Type} (before : A -> A -> bool) (R : A -> A -> Prop).

Lemma insert_by_perm x l : Permutation (insert_by before x l) (x :: l).
Proof.
  induction l as [|y l IH]; simpl; [reflexivity|].
  destruct (before x y); [reflexivity|].
  rewrite IH. apply perm_swap.
Qed.

Lemma sort_by_perm l : Permutation (sort_by before l) l.
Proof.
  induction l as [|x l IH]; simpl; [reflexivity|].
  rewrite insert_by_perm, IH. reflexivity.
Qed.

Hypothesis before_R : forall x y, before x y = true -> R x y.
Hypothesis not_before_R : forall x y, before x y = false -> R y x.

Lemma insert_by_hdrel x y l :
  HdRel R y l -> R y x -> HdRel R y (insert_by before x l).
Proof.
  intros H Hyx. destruct l as [|z l]; simpl; [constructor; exact Hyx|].
  destruct (before x z); constructor; [exact Hyx|inversion H; assumption].
Qed.

Lemma insert_by_sorted x l : Sorted R l -> Sorted R (insert_by before x l).
Proof.
  induction l as [|y l IH]; simpl; intros H.
  - repeat constructor.
  - destruct (before x y) eqn:E.
    + constructor; [exact H|]. constructor. apply before_R. exact E.
    + inversion H as [|? ? Hl Hhd]; subst. constructor; [exact (IH Hl)|].
      apply insert_by_hdrel; [exact Hhd|]. apply not_before_R. exact E.
Qed.

Lemma sort_by_sorted l : Sorted R (sort_by before l).
Proof.
  induction l as [|x l IH]; simpl; [constructor|].
  apply insert_by_sorted. exact IH.
Qed.
End SortFacts.

(** ** Notification statements *)

Lemma sort_notifications_sorted l : Sorted newest_first (sort_by newer l).
Proof.
  apply sort_by_sorted; unfold newer, newest_first; intros x y H.
  - apply Z.ltb_lt in H. lia.
  - apply Z.ltb_ge in H. lia.
Qed.

Lemma in_firstn {A} n (l : list A) x : In x (firstn n l) -> In x l.
Proof.
  intros H. rewrite <- (firstn_skipn n l). apply in_or_app. left. exact H.
Qed.

Lemma mark_then_delete u l :
  filter (fun n => negb (Nat.eqb (n_user_id n) u && is_read n))
    (map (fun n => if Nat.eqb (n_user_id n) u && negb (is_read n) then mark_read n else n) l)
  = filter (fun n => negb (Nat.eqb (n_user_id n) u)) l.
Proof.
  induction l as [|n l IH]; simpl; [reflexivity|].
  destruct (Nat.eqb (n_user_id n) u) eqn:E; destruct (is_read n) eqn:R; simpl;
    rewrite ?E, ?R; simpl; rewrite ?IH; reflexivity.
Qed.

Lemma insert_notification_row_ok' uid ty msg lnk aid pid d d' r :
  insert_notification_row uid ty msg lnk aid pid d = Ok (d', r) ->
  notifications d' = notifications d ++ [mk_notification r uid ty msg lnk false aid pid (now d)].
Proof.
  unfold insert_notification_row.
  destruct (_ && _ && _); intros H; inversion H; subst; auto.
Qed.

Lemma creates_only_appends s1 s2 :
  creates_only s1 s2 -> faults s1 = [] ->
  faults s2 = [] /\ exists added, notifications (db_of s2) = notifications (db_of s1) ++ added.
Proof.
  induction 1 as [s|s1 s2 s3 uid ty msg lnk aid pid r H IH E]; intros Hf.
  - split; [exact Hf|]. exists []. rewrite app_nil_r. reflexivity.
  - destruct (IH Hf) as [Hf2 [added Ha]].
    unfold create_notification, execute_write, next_fault in E. rewrite Hf2 in E.
    destruct (insert_notification_row _ _ _ _ _ _ _) as [[d' n]|e] eqn:Ei;
      inversion E; subst; clear E; cbn [faults db_of]; split; auto.
    + exists (added ++ [mk_notification n uid ty msg lnk false aid pid (now (db_of s2))]).
      rewrite (insert_notification_row_ok' _ _ _ _ _ _ _ _ _ Ei), Ha, app_assoc.
      reflexivity.
    + exists added. exact Ha.
Qed.

Lemma get_user_notifications_run uid flag s :
  faults s = [] ->
  get_user_notifications uid flag s =
    (Ok (firstn 50 (sort_by newer (filter (fetch_selects uid flag)
          (filter (fun n => negb (read_sweep_deletes uid (now (db_of s)) n))
                  (notifications (db_of s)))))),
     mk_st (set_notifications (db_of s)
              (filter (fun n => negb (read_sweep_deletes uid (now (db_of s)) n))
                      (notifications (db_of s)))) []).
Proof.
  intros Hf. unfold get_user_notifications, bind, query, execute_write, next_fault.
  rewrite Hf. reflexivity.
Qed.

Lemma mark_notifications_read_run r sess u s :
  s_user_id sess = Some u -> s_role sess = Some r -> faults s = [] ->
  mark_notifications_read r sess s =
    (Ok JsonSuccess,
     mk_st (set_notifications (db_of s)
              (filter (fun n => negb (Nat.eqb (n_user_id n) u)) (notifications (db_of s)))) []).
Proof.
  intros Hu Hr Hf.
  unfold mark_notifications_read, flask_route, role_required. rewrite Hu, Hr.
  replace (role_eqb r r) with true by (destruct r; reflexivity).
  unfold mark_notifications_as_read, delete_read_notifications, try_except, bind, ret,
    execute_write, next_fault.
  rewrite Hf. cbn [db_of faults]. unfold set_notifications at 2. cbn [notifications].
  unfold set_notifications. cbn [notifications]. rewrite mark_then_delete. reflexivity. Qed.

Lemma mark_step_reads_all u s :
  faults s = [] ->
  forall n, In n (notifications (db_of (snd (mark_notifications_as_read u s)))) ->
    n_user_id n = u -> is_read n = true.
Proof.
  intros Hf n. unfold mark_notifications_as_read, bind, ret, execute_write, next_fault.
  rewrite Hf. cbn [snd db_of notifications set_notifications].
  intros Hin Hu. apply in_map_iff in Hin as [m [Hm _]]. subst n.
  destruct (Nat.eqb (n_user_id m) u && negb (is_read m)) eqn:E; [reflexivity|].
  cbn [n_user_id] in Hu. subst u. rewrite Nat.eqb_refl in E.
  destruct (is_read m); [reflexivity|discriminate].
Qed.

Lemma fetched_in l u flag now_ x :
  In x (firstn 50 (sort_by newer (filter (fetch_selects u flag)
          (filter (fun n => negb (read_sweep_deletes u now_ n)) l)))) ->
  In x l /\ n_user_id x = u.
Proof.
  intros H. apply in_firstn in H.
  apply (Permutation_in _ (sort_by_perm newer _)) in H.
  apply filter_In in H as [H Hs]. apply filter_In in H as [H _].
  unfold fetch_selects in Hs. apply andb_true_iff in Hs as [Hu _].
  apply Nat.eqb_eq in Hu. split; assumption.
Qed.

Lemma cleanup_run s :
  faults s = [] ->
  snd (cleanup_old_notifications s) =
    mk_st (set_notifications (db_of s)
             (filter (fun n => negb (n_created_at n <? now (db_of s) - thirty_days))
                     (notifications (db_of s)))) [].
Proof.
  intros Hf. unfold cleanup_old_notifications, bind, ret, execute_write, next_fault.
  rewrite Hf. reflexivity.
Qed.

Lemma get_notifications_run r sess u s :
  s_user_id sess = Some u -> s_role sess = Some r -> faults s = [] ->
  get_notifications r sess s =
    (Ok (JsonNotifications
           (firstn 50 (sort_by newer (filter (fetch_selects u true)
              (filter (fun n => negb (read_sweep_deletes u (now (db_of s)) n))
                      (notifications (db_of s))))))),
     mk_st (set_notifications (db_of s)
              (filter (fun n => negb (read_sweep_deletes u (now (db_of s)) n))
                      (notifications (db_of s)))) []).
Proof.
  intros Hu Hr Hf.
  unfold get_notifications, flask_route, role_required. rewrite Hu, Hr.
  replace (role_eqb r r) with true by (destruct r; reflexivity).
  unfold try_except, bind at 1. rewrite (get_user_notifications_run u true s Hf).
  reflexivity.
Qed.

Lemma read_sweep_deletes_spec uid now_ n :
  read_sweep_deletes uid now_ n = true <->
  n_user_id n = uid /\ is_read n = true /\ n_created_at n < now_ - seven_days.
Proof.
  unfold read_sweep_deletes. rewrite !andb_true_iff, Nat.eqb_eq, Z.ltb_lt. tauto.
Qed.

Lemma filter_negb_In {A} (f : A -> bool) (P : A -> Prop) l :
  (forall x, f x = true <-> P x) ->
  forall x, In x (filter (fun y => negb (f y)) l) <-> In x l /\ ~ P x.
Proof.
  intros Hf x. rewrite filter_In, negb_true_iff, <- Hf.
  destruct (f x); intuition congruence.
Qed.

(** ** C7: opening the notification panel *)

(** C7: opening the notification panel marks every unread notification
    of the user as read (first statement), then deletes all the user's read
    notifications, so the user has none left; a fetch that follows, after
    any number of notifications were created, returns only notifications
    created in between, and the empty list if none were. *)
Theorem C7_open_panel_then_fetch r sess u s :
  s_user_id sess = Some u -> s_role sess = Some r -> faults s = [] ->
  (forall n, In n (notifications (db_of (snd (mark_notifications_as_read u s)))) ->
     n_user_id n = u -> is_read n = true) /\
  fst (mark_notifications_read r sess s) = Ok JsonSuccess /\
  notifications (db_of (snd (mark_notifications_read r sess s))) =
    filter (fun n => negb (Nat.eqb (n_user_id n) u)) (notifications (db_of s)) /\
  (forall s2, creates_only (snd (mark_notifications_read r sess s)) s2 ->
     exists added,
       notifications (db_of s2) =
         notifications (db_of (snd (mark_notifications_read r sess s))) ++ added /\
       forall flag, exists l,
         fst (get_user_notifications u flag s2) = Ok l /\ forall x, In x l -> In x added) /\
  (forall flag, fst (get_user_notifications u flag (snd (mark_notifications_read r sess s))) = Ok []).
Proof.
  intros Hu Hr Hf.
  pose proof (mark_notifications_read_run r sess u s Hu Hr Hf) as Hrun.
  assert (Hnone : forall n, In n (notifications (db_of (snd (mark_notifications_read r sess s)))) ->
            n_user_id n <> u).
  { rewrite Hrun. cbn [snd db_of]. unfold set_notifications. cbn [notifications].
    intros n Hn Heq. apply filter_In in Hn as [_ Hn]. rewrite Heq, Nat.eqb_refl in Hn.
    discriminate. }
  split; [exact (mark_step_reads_all u s Hf)|].
  rewrite Hrun in *. cbn [fst snd db_of] in *. unfold set_notifications in *.
  cbn [notifications] in *. split; [reflexivity|]. split; [reflexivity|]. split.
  - intros s2 Hc.
    destruct (creates_only_appends _ _ Hc eq_refl) as [Hf2 [added Ha]].
    cbn [db_of notifications] in Ha. exists added. split; [exact Ha|]. intros flag.
    rewrite (get_user_notifications_run u flag s2 Hf2). cbn [fst].
    eexists. split; [reflexivity|]. intros x Hx.
    apply fetched_in in Hx as [Hx Hxu]. rewrite Ha in Hx.
    apply in_app_or in Hx as [Hx|Hx]; [|exact Hx].
    exfalso. exact (Hnone x Hx Hxu).
  - intros flag. rewrite get_user_notifications_run by reflexivity. cbn [fst db_of].
    f_equal. destruct (firstn _ _) as [|x l] eqn:E; [reflexivity|].
    exfalso. assert (Hx : In x (x :: l)) by (left; reflexivity). rewrite <- E in Hx.
    apply fetched_in in Hx as [Hx Hxu]. exact (Hnone x Hx Hxu).
Qed.

(** Alice opens the panel on the sample clinic; her list is then empty. *)
Lemma C7_witness :
  fst (mark_notifications_read PATIENT alice_session (mk_st clinic [])) = Ok JsonSuccess /\
  notifications (db_of (snd (mark_notifications_read PATIENT alice_session (mk_st clinic [])))) = [] /\
  fst (get_user_notifications 1 true
         (snd (mark_notifications_read PATIENT alice_session (mk_st clinic [])))) = Ok [].
Proof.
  destruct (C7_open_panel_then_fetch PATIENT alice_session 1 (mk_st clinic [])
              eq_refl eq_refl eq_refl) as [_ [H1 [H2 [_ H3]]]].
  split; [exact H1|]. split; [rewrite H2; reflexivity|]. apply H3.
Defined.

(** ** C8: the notification sweeps *)

(** C8 (counterexample): both notification API routes fetch with
    [unread_only] set, so Alice's read notification of the day before
    survives the sweep but is not returned. *)
Lemma C8_read_notification_not_returned :
  notifications (db_of (snd (get_notifications PATIENT alice_session (mk_st clinic []))))
    = notifications clinic /\
  notifications clinic <> [] /\
  fst (get_notifications PATIENT alice_session (mk_st clinic [])) = Ok (JsonNotifications []).
Proof.
  split; [vm_compute; reflexivity|]. split; [discriminate|]. vm_compute. reflexivity.
Qed.

(** C8 (amended): fetching a user's notifications first deletes exactly
    the user's own notifications that are read and older than 7 days; it
    then returns the first 50, newest first, of the remaining notifications
    of the user that the fetch selects, the unread ones only when
    [unread_only] is set, as both API routes set it.  The startup sweep
    deletes exactly the notifications older than 30 days. *)
Theorem C8_sweep_then_fetch_newest_first uid flag s :
  faults s = [] ->
  (forall n, In n (notifications (db_of (snd (get_user_notifications uid flag s)))) <->
     In n (notifications (db_of s)) /\
     ~ (n_user_id n = uid /\ is_read n = true /\ n_created_at n < now (db_of s) - seven_days)) /\
  (exists sorted,
     Permutation sorted
       (filter (fun n => Nat.eqb (n_user_id n) uid && (if flag then negb (is_read n) else true))
          (notifications (db_of (snd (get_user_notifications uid flag s))))) /\
     Sorted newest_first sorted /\
     fst (get_user_notifications uid flag s) = Ok (firstn 50 sorted)) /\
  (forall r sess, s_user_id sess = Some uid -> s_role sess = Some r ->
     exists l, fst (get_user_notifications uid true s) = Ok l /\
       get_notifications r sess s = (Ok (JsonNotifications l), snd (get_user_notifications uid true s))) /\
  (forall n, In n (notifications (db_of (snd (cleanup_old_notifications s)))) <->
     In n (notifications (db_of s)) /\ ~ (n_created_at n < now (db_of s) - thirty_days)).
Proof.
  intros Hf. split; [|split; [|split]].
  - rewrite (get_user_notifications_run uid flag s Hf). cbn [snd db_of].
    unfold set_notifications. cbn [notifications].
    apply filter_negb_In. apply read_sweep_deletes_spec.
  - rewrite (get_user_notifications_run uid flag s Hf). cbn [fst snd db_of].
    unfold set_notifications. cbn [notifications].
    eexists. split; [apply sort_by_perm|]. split; [apply sort_notifications_sorted|].
    reflexivity.
  - intros r sess Hu Hr. rewrite (get_notifications_run r sess uid s Hu Hr Hf).
    rewrite (get_user_notifications_run uid true s Hf). eexists. split; reflexivity.
  - rewrite (cleanup_run s Hf). cbn [db_of]. unfold set_notifications. cbn [notifications].
    apply filter_negb_In. intros n. apply Z.ltb_lt.
Qed.

(** With [unread_only] off, the read notification of the sample clinic is
    kept and returned. *)
Lemma C8_witness :
  faults (mk_st clinic []) = [] /\
  fst (get_user_notifications 1 false (mk_st clinic [])) =
    Ok (notifications clinic) /\
  In (hd (mk_notification 0 0 APPOINTMENT_ACCEPTED EmptyString None false None None 0) (notifications clinic))
     (notifications (db_of (snd (get_user_notifications 1 false (mk_st clinic []))))).
Proof.
  split; [reflexivity|].
  destruct (C8_sweep_then_fetch_newest_first 1 false (mk_st clinic []) eq_refl)
    as [Hsweep [[sorted [Hp [_ Hr]]] _]].
  split.
  - rewrite Hr. f_equal. vm_compute in Hp. apply Permutation_sym, Permutation_length_1_inv in Hp.
    rewrite Hp. reflexivity.
  - apply Hsweep. split; [vm_compute; left; reflexivity|].
    vm_compute. intros [_ [_ H]]. discriminate H.
Defined.

(** ** TEXT order *)

Lemma string_compare_refl x : String.compare x x = Eq.
Proof.
  induction x as [|c x IH]; cbn [String.compare]; [reflexivity|].
  unfold Ascii.compare. rewrite N.compare_refl. exact IH.
Qed.

Lemma string_compare_le_trans a b c :
  String.compare a b <> Gt -> String.compare b c <> Gt -> String.compare a c <> Gt.
Proof.
  revert b c. induction a as [|x a IH]; intros [|y b] [|z c]; cbn [String.compare];
    try congruence.
  unfold Ascii.compare.
  destruct (N.compare_spec (N_of_ascii x) (N_of_ascii y)) as [Hxy|Hxy|Hxy];
  destruct (N.compare_spec (N_of_ascii y) (N_of_ascii z)) as [Hyz|Hyz|Hyz];
  destruct (N.compare_spec (N_of_ascii x) (N_of_ascii z)) as [Hxz|Hxz|Hxz];
  intros H1 H2; try congruence; try lia.
  apply (IH b c H1 H2).
Qed.

Lemma string_leb_refl x : String.leb x x = true.
Proof. unfold String.leb. rewrite string_compare_refl. reflexivity. Qed.

Lemma string_leb_trans x y z :
  String.leb x y = true -> String.leb y z = true -> String.leb x z = true.
Proof.
  unfold String.leb. intros H1 H2.
  assert (String.compare x z <> Gt) as H.
  { apply (string_compare_le_trans x y z);
      [destruct (String.compare x y)|destruct (String.compare y z)]; congruence. }
  destruct (String.compare x z); congruence.
Qed.

Lemma string_leb_false x y : String.leb x y = false -> String.leb y x = true.
Proof.
  unfold String.leb. rewrite (String.compare_antisym y x).
  destruct (String.compare x y); cbn; congruence.
Qed.

Lemma string_ltb_leb x y : String.ltb x y = true -> String.leb x y = true.
Proof. unfold String.ltb, String.leb. destruct (String.compare x y); congruence. Qed.

Lemma string_ltb_false x y : String.ltb x y = false -> String.leb y x = true.
Proof.
  unfold String.ltb, String.leb. rewrite (String.compare_antisym y x).
  destruct (String.compare x y); cbn; congruence.
Qed.

Lemma string_leb_empty x : String.leb x EmptyString = true -> x = EmptyString.
Proof. destruct x; [reflexivity|]. unfold String.leb. cbn. discriminate. Qed.

Lemma max_text_ub l x : In x l -> String.leb x (max_text l) = true.
Proof.
  induction l as [|y l IH]; cbn [In max_text fold_right]; [intros []|].
  fold (max_text l). intros [->|Hx].
  - destruct (String.leb x (max_text l)) eqn:E; [exact E|apply string_leb_refl].
  - specialize (IH Hx). destruct (String.leb y (max_text l)) eqn:E; [exact IH|].
    exact (string_leb_trans _ _ _ IH (string_leb_false _ _ E)).
Qed.

Lemma max_text_in l : l <> [] -> In (max_text l) l.
Proof.
  induction l as [|y l IH]; intros Hne; [congruence|]. cbn [max_text fold_right].
  fold (max_text l). destruct (String.leb y (max_text l)) eqn:E; [|left; reflexivity].
  destruct l as [|z l].
  - cbn in E |- *. left. exact (string_leb_empty _ E).
  - right. apply IH. discriminate.
Qed.

(** ** The roster query *)

Lemma find_user_id d i u : find_user d i = Some u -> u_id u = i.
Proof.
  unfold find_user. intros H. apply find_some in H as [_ H]. apply Nat.eqb_eq. exact H.
Qed.

Lemma roster_join_In d did u p a :
  In (u, p, a) (roster_join d did) <->
  In a (appointments d) /\ doctor_id a = did /\ confirmed_or_completed (status a) = true /\
  find_user d (patient_id a) = Some u /\ find_patient_detail d (patient_id a) = Some p.
Proof.
  unfold roster_join. rewrite in_flat_map. split.
  - intros [a' [Ha' Hin]].
    destruct (Nat.eqb (doctor_id a') did && confirmed_or_completed (status a')) eqn:E;
      [|destruct Hin].
    apply andb_true_iff in E as [E1 E2]. apply Nat.eqb_eq in E1.
    destruct (find_user d (patient_id a')) eqn:Fu; [|destruct Hin];
    destruct (find_patient_detail d (patient_id a')) eqn:Fp; [|destruct Hin].
    destruct Hin as [Heq|[]]. inversion Heq; subst. auto.
  - intros [Ha [Hd [Hc [Fu Fp]]]]. exists a. split; [exact Ha|].
    rewrite Hd, Nat.eqb_refl, Hc. cbn. rewrite Fu, Fp. left. reflexivity.
Qed.

Lemma roster_group d did pid :
  (exists u, find_user d pid = Some u) -> (exists p, find_patient_detail d pid = Some p) ->
  map (fun '(_, _, a) => a) (filter (fun '(u, _, _) => Nat.eqb (u_id u) pid) (roster_join d did))
  = filter (fun a => Nat.eqb (patient_id a) pid && Nat.eqb (doctor_id a) did
                     && confirmed_or_completed (status a)) (appointments d).
Proof.
  intros [u0 Hu0] [p0 Hp0]. unfold roster_join.
  induction (appointments d) as [|a l IH]; [reflexivity|].
  cbn [flat_map]. rewrite filter_app, map_app, IH. cbn [filter].
  destruct (Nat.eqb (patient_id a) pid) eqn:P.
  - apply Nat.eqb_eq in P. rewrite P. cbn [andb].
    destruct (Nat.eqb (doctor_id a) did && confirmed_or_completed (status a)); [|reflexivity].
    rewrite Hu0, Hp0. cbn. rewrite (find_user_id _ _ _ Hu0), Nat.eqb_refl. reflexivity.
  - cbn [andb].
    destruct (Nat.eqb (doctor_id a) did && confirmed_or_completed (status a)); [|reflexivity].
    destruct (find_user d (patient_id a)) as [u|] eqn:Fu; [|reflexivity].
    destruct (find_patient_detail d (patient_id a)); [|reflexivity].
    cbn. rewrite (find_user_id _ _ _ Fu), P. reflexivity.
Qed.

Lemma map_r_id_group_row d rows ids : map r_id (map (group_row d rows) ids) = ids.
Proof. induction ids as [|i ids IH]; cbn; congruence. Qed.

Lemma NoDup_map_filter {A B} (h : A -> B) (f : A -> bool) l :
  NoDup (map h l) -> NoDup (map h (filter f l)).
Proof.
  induction l as [|x l IH]; cbn; [intros; constructor|]. intros H.
  inversion H as [|? ? Hx Hl]; subst.
  destruct (f x); cbn; [|exact (IH Hl)]. constructor; [|exact (IH Hl)].
  intros Hin. apply Hx. apply in_map_iff in Hin as [y [Hy Hin]].
  apply filter_In in Hin as [Hin _]. rewrite <- Hy. apply in_map. exact Hin.
Qed.

(** ** C9: the doctor's patient roster *)

(** C9 (counterexample): Alice has two appointments with Bob, the later
    one PENDING on 2025-02-01, yet Bob's roster gives her one appointment
    and a last visit on 2025-01-10. *)
Lemma C9_pending_visit_not_counted :
  map date (filter (fun a => Nat.eqb (patient_id a) 1 && Nat.eqb (doctor_id a) 2)
              (appointments clinic)) = ["2025-01-10"; "2025-02-01"]%string /\
  fst (get_doctor_patients 2 (mk_st clinic [])) =
    Ok [mk_roster_row 1 "Alice" 1 "2025-01-10" 1].
Proof. split; vm_compute; reflexivity. Qed.

(** C9 (amended): the roster lists, once each, the patients with a user
    row, a patient_details row and an appointment with the doctor in status
    CONFIRMED or COMPLETED.  The total and completed counts and the last
    visit (the greatest date) are taken over those CONFIRMED or COMPLETED
    appointments only, and the rows are ordered by last visit, latest
    first.  Appointment ids are unique, as the primary key makes them. *)
Theorem C9_roster_over_confirmed_completed did s :
  NoDup (map a_id (appointments (db_of s))) ->
  exists roster,
    get_doctor_patients did s = (Ok roster, s) /\
    (forall pid, In pid (map r_id roster) <->
       (exists u, find_user (db_of s) pid = Some u) /\
       (exists p, find_patient_detail (db_of s) pid = Some p) /\
       exists a, In a (appointments (db_of s)) /\ patient_id a = pid /\ doctor_id a = did /\
                 (status a = CONFIRMED \/ status a = COMPLETED)) /\
    NoDup (map r_id roster) /\
    (forall row, In row roster ->
       let g := filter (fun a => Nat.eqb (patient_id a) (r_id row) && Nat.eqb (doctor_id a) did
                                 && confirmed_or_completed (status a))
                       (appointments (db_of s)) in
       g <> [] /\
       total_appointments row = length g /\
       completed_appointments row = length (filter (fun a => status_eqb (status a) COMPLETED) g) /\
       In (last_visit row) (map date g) /\
       (forall a, In a g -> String.leb (date a) (last_visit row) = true) /\
       exists u, find_user (db_of s) (r_id row) = Some u /\ r_full_name row = full_name u) /\
    Sorted (fun x y => String.leb (last_visit y) (last_visit x) = true) roster.
Proof.
  intros Hnd. set (d := db_of s). set (rows := roster_join d did).
  set (ids := nodup Nat.eq_dec (map (fun '(u, _, _) => u_id u) rows)).
  assert (Hids : forall pid, In pid ids <->
            (exists u, find_user d pid = Some u) /\
            (exists p, find_patient_detail d pid = Some p) /\
            exists a, In a (appointments d) /\ patient_id a = pid /\ doctor_id a = did /\
                      confirmed_or_completed (status a) = true).
  { intros pid. unfold ids. rewrite nodup_In, in_map_iff. split.
    - intros [[[u p] a] [Hu Hin]]. apply roster_join_In in Hin as [Ha [Hd [Hc [Fu Fp]]]].
      rewrite (find_user_id _ _ _ Fu) in Hu. subst pid.
      split; [eauto|]. split; [eauto|]. exists a. auto.
    - intros [[u Fu] [[p Fp] [a [Ha [Hp [Hd Hc]]]]]]. subst pid.
      exists (u, p, a). split; [exact (find_user_id _ _ _ Fu)|].
      apply roster_join_In. auto. }
  exists (sort_by later_visit (map (group_row d rows) ids)). split; [reflexivity|].
  assert (Hperm : Permutation (map r_id (sort_by later_visit (map (group_row d rows) ids))) ids).
  { rewrite <- (map_r_id_group_row d rows ids) at 2. apply Permutation_map, sort_by_perm. }
  split; [|split; [|split]].
  - intros pid. split.
    + intros H. apply (Permutation_in _ Hperm), Hids in H as [Hu [Hp [a [Ha [Hpa [Hd Hc]]]]]].
      split; [exact Hu|]. split; [exact Hp|]. exists a. repeat split; try assumption.
      unfold confirmed_or_completed in Hc. destruct (status a); cbn in Hc; auto; discriminate.
    + intros [Hu [Hp [a [Ha [Hpa [Hd Hc]]]]]].
      apply (Permutation_in _ (Permutation_sym Hperm)), Hids.
      split; [exact Hu|]. split; [exact Hp|]. exists a. repeat split; try assumption.
      destruct Hc as [-> | ->]; reflexivity.
  - apply (Permutation_NoDup (Permutation_sym Hperm)). apply NoDup_nodup.
  - intros row Hrow. apply (Permutation_in _ (sort_by_perm later_visit _)) in Hrow.
    apply in_map_iff in Hrow as [pid [<- Hpid]].
    pose proof Hpid as Hpid'. apply Hids in Hpid' as [Hu [Hp [a [Ha [Hpa [Hd Hc]]]]]].
    cbn zeta. unfold group_row. cbn [r_id total_appointments completed_appointments
      last_visit r_full_name]. unfold rows. rewrite (roster_group d did pid Hu Hp).
    assert (Hg : In a (filter (fun a => Nat.eqb (patient_id a) pid && Nat.eqb (doctor_id a) did
                                 && confirmed_or_completed (status a)) (appointments d))).
    { apply filter_In. split; [exact Ha|]. rewrite Hpa, Hd, !Nat.eqb_refl, Hc. reflexivity. }
    split; [intros E; rewrite E in Hg; destruct Hg|].
    split.
    { rewrite nodup_fixed_point; [apply length_map|]. apply NoDup_map_filter. exact Hnd. }
    split; [reflexivity|].
    split.
    { apply max_text_in. intros E. apply (in_map date) in Hg. rewrite E in Hg. destruct Hg. }
    split.
    { intros b Hb. apply max_text_ub, in_map. exact Hb. }
    destruct Hu as [u Fu]. exists u. rewrite Fu. split; reflexivity.
  - apply sort_by_sorted.
    + intros x y H. unfold later_visit in H. exact (string_ltb_leb _ _ H).
    + intros x y H. unfold later_visit in H. exact (string_ltb_false _ _ H).
Qed.

(** Bob's roster on the sample clinic. *)
Lemma C9_witness :
  NoDup (map a_id (appointments (db_of (mk_st clinic [])))) /\
  exists roster,
    get_doctor_patients 2 (mk_st clinic []) = (Ok roster, mk_st clinic []) /\
    NoDup (map r_id roster).
Proof.
  assert (Hnd : NoDup (map a_id (appointments (db_of (mk_st clinic []))))).
  { cbn. constructor; [cbn; intros [H|[]]; discriminate|].
    constructor; [intros []|constructor]. }
  split; [exact Hnd|].
  destruct (C9_roster_over_confirmed_completed 2 (mk_st clinic []) Hnd)
    as [roster [Hr [_ [Hn _]]]].
  exists roster. split; [exact Hr|exact Hn].
Defined.

(** * Further properties of the routes and database functions *)
(** ** The unread-notification badge *)

Lemma get_notification_count_run r sess uid s :
  s_user_id sess = Some uid -> s_role sess = Some r ->
  get_notification_count r sess s =
    (Ok (JsonCount (length (filter (fun n => Nat.eqb (n_user_id n) uid && negb (is_read n))
                                   (notifications (db_of s))))), s).
Proof.
  intros Hu Hr. unfold get_notification_count, flask_route, role_required. rewrite Hu, Hr.
  replace (role_eqb r r) with true by (destruct r; reflexivity). reflexivity.
Qed.

Lemma filter_filter_implied {A} (p q : A -> bool) l :
  (forall x, p x = true -> q x = true) -> filter p (filter q l) = filter p l.
Proof.
  intros H. induction l as [|x l IH]; cbn; [reflexivity|].
  destruct (q x) eqn:Eq; cbn; destruct (p x) eqn:Ep; try rewrite IH; try reflexivity.
  rewrite (H x Ep) in Eq. discriminate.
Qed.

Lemma unread_survives_sweep uid now_ l :
  filter (fun n => Nat.eqb (n_user_id n) uid && negb (is_read n))
    (filter (fun n => negb (read_sweep_deletes uid now_ n)) l)
  = filter (fun n => Nat.eqb (n_user_id n) uid && negb (is_read n)) l.
Proof.
  apply filter_filter_implied. intros n H. unfold read_sweep_deletes.
  apply andb_true_iff in H as [_ H]. destruct (is_read n); [discriminate|].
  rewrite andb_false_r. reflexivity.
Qed.

(** X1: for a logged-in user of the route's role, the badge route returns the number c of the user's unread notifications and changes nothing; the list route returns min 50 c notifications, each in the store, the user's own and unread, lists all of them when c <= 50, and leaves the badge count at c. *)
Theorem badge_matches_list r sess uid s :
  s_user_id sess = Some uid -> s_role sess = Some r -> faults s = [] ->
  let c := length (filter (fun n => Nat.eqb (n_user_id n) uid && negb (is_read n))
                          (notifications (db_of s))) in
  get_notification_count r sess s = (Ok (JsonCount c), s) /\
  exists ns,
    fst (get_notifications r sess s) = Ok (JsonNotifications ns) /\
    length ns = Nat.min 50 c /\
    (forall n, In n ns -> In n (notifications (db_of s)) /\ n_user_id n = uid /\ is_read n = false) /\
    (c <= 50 -> forall n, In n (notifications (db_of s)) -> n_user_id n = uid ->
       is_read n = false -> In n ns)%nat /\
    fst (get_notification_count r sess (snd (get_notifications r sess s))) = Ok (JsonCount c).
Proof.
  intros Hu Hr Hf c. split; [exact (get_notification_count_run r sess uid s Hu Hr)|].
  rewrite (get_notifications_run r sess uid s Hu Hr Hf). cbn [fst snd].
  set (sweep := filter (fun n => negb (read_sweep_deletes uid (now (db_of s)) n))
                       (notifications (db_of s))).
  assert (Hsel : filter (fetch_selects uid true) sweep =
                 filter (fun n => Nat.eqb (n_user_id n) uid && negb (is_read n))
                        (notifications (db_of s))).
  { unfold sweep. etransitivity; [|apply (unread_survives_sweep uid (now (db_of s)))]. reflexivity. }
  eexists. split; [reflexivity|]. rewrite Hsel. split; [|split; [|split]].
  - rewrite length_firstn, (Permutation_length (sort_by_perm newer _)). reflexivity.
  - intros n Hn. apply in_firstn in Hn.
    apply (Permutation_in _ (sort_by_perm newer _)), filter_In in Hn as [Hn Hs].
    apply andb_true_iff in Hs as [Hs1 Hs2]. apply Nat.eqb_eq in Hs1.
    apply negb_true_iff in Hs2. auto.
  - intros Hc n Hn Hnu Hnr. rewrite firstn_all2.
    + apply (Permutation_in _ (Permutation_sym (sort_by_perm newer _))), filter_In.
      split; [exact Hn|]. rewrite Hnu, Nat.eqb_refl, Hnr. reflexivity.
    + rewrite (Permutation_length (sort_by_perm newer _)). exact Hc.
  - rewrite (get_notification_count_run r sess uid _ Hu Hr). cbn [fst db_of].
    unfold set_notifications. cbn [notifications]. unfold sweep.
    rewrite unread_survives_sweep. reflexivity.
Qed.

(** X2: after the mark-read route the user's badge count is 0, and every other user's unread count is what it was. *)
Theorem open_panel_clears_badge r sess uid s :
  s_user_id sess = Some uid -> s_role sess = Some r -> faults s = [] ->
  fst (get_notification_count r sess (snd (mark_notifications_read r sess s))) = Ok (JsonCount 0) /\
  forall v, v <> uid ->
    fst (get_unread_notification_count v (snd (mark_notifications_read r sess s))) =
    fst (get_unread_notification_count v s).
Proof.
  intros Hu Hr Hf. rewrite (mark_notifications_read_run r sess uid s Hu Hr Hf). cbn [snd].
  split.
  - rewrite (get_notification_count_run r sess uid _ Hu Hr). cbn [fst db_of].
    unfold set_notifications. cbn [notifications]. do 2 f_equal.
    induction (notifications (db_of s)) as [|n l IH]; cbn; [reflexivity|].
    destruct (Nat.eqb (n_user_id n) uid) eqn:E; cbn; [exact IH|]. rewrite E. exact IH.
  - intros v Hv. unfold get_unread_notification_count, query. cbn [fst db_of].
    unfold set_notifications. cbn [notifications]. do 2 f_equal.
    apply filter_filter_implied. intros n H. apply andb_true_iff in H as [H _].
    apply Nat.eqb_eq in H. rewrite H. apply Nat.eqb_neq in Hv. rewrite Hv. reflexivity.
Qed.

(** X3: a successful create_notification raises the unread count of its recipient by one and leaves every other user's unread count unchanged. *)
Theorem notification_raises_badge uid ty msg lnk aid pid s nid s' :
  create_notification uid ty msg lnk aid pid s = (Ok nid, s') ->
  forall v, exists c,
    fst (get_unread_notification_count v s) = Ok c /\
    fst (get_unread_notification_count v s') = Ok (c + if Nat.eqb v uid then 1 else 0)%nat.
Proof.
  intros H v. unfold create_notification, execute_write in H.
  destruct (next_fault s) as [[|] rest]; [discriminate|].
  destruct (insert_notification_row _ _ _ _ _ _ _) as [[d' r]|e] eqn:E; [|discriminate].
  inversion H; subst; clear H.
  destruct (insert_notification_row_ok _ _ _ _ _ _ _ _ _ E) as [_ [_ Hn]].
  unfold get_unread_notification_count, query. cbn [fst db_of]. eexists. split; [reflexivity|].
  rewrite Hn, filter_app, length_app. cbn. rewrite (Nat.eqb_sym uid v).
  destruct (Nat.eqb v uid); reflexivity.
Qed.

(** ** Dashboard counters *)

Lemma get_doctor_stats_run today did s :
  get_doctor_stats today did s =
    (Ok (mk_doctor_stats
      (length (filter (fun a => Nat.eqb (doctor_id a) did && status_eqb (status a) PENDING)
                      (appointments (db_of s))))
      (length (filter (fun a => Nat.eqb (doctor_id a) did && String.eqb (date a) today
                                && confirmed_or_completed (status a))
                      (appointments (db_of s))))
      (length (nodup Nat.eq_dec (map patient_id
        (filter (fun a => Nat.eqb (doctor_id a) did && confirmed_or_completed (status a))
                (appointments (db_of s))))))), s).
Proof. reflexivity. Qed.

Lemma transition_routes_appointments sess uid aid s :
  s_user_id sess = Some uid -> s_role sess = Some DOCTOR -> faults s = [] ->
  appointments (db_of (snd (accept_appointment sess aid s))) =
    map (fun x => if Nat.eqb (a_id x) aid then with_status x CONFIRMED else x)
        (appointments (db_of s)) /\
  appointments (db_of (snd (reject_appointment sess aid s))) =
    map (fun x => if Nat.eqb (a_id x) aid then with_status x REJECTED else x)
        (appointments (db_of s)) /\
  appointments (db_of (snd (complete_appointment sess aid s))) =
    map (fun x => if Nat.eqb (a_id x) aid then with_status x COMPLETED else x)
        (appointments (db_of s)).
Proof.
  intros Hu Hr Hf. split; [|split].
  - unfold accept_appointment. enter_doctor_route Hu Hr. rewrite Hf. simpl.
    destruct (find_appointment (db_of s) aid) eqn:Ha; simpl; [|reflexivity].
    unfold create_notification, execute_write, next_fault. simpl.
    destruct (insert_notification_row _ _ _ _ _ _ _) as [[d' r]|e] eqn:E; simpl;
      [rewrite (insert_notification_appointments _ _ _ _ _ _ _ _ _ E)|]; reflexivity.
  - unfold reject_appointment. enter_doctor_route Hu Hr. rewrite Hf. simpl.
    destruct (find_appointment (db_of s) aid) eqn:Ha; simpl; [|reflexivity].
    unfold create_notification, execute_write, next_fault. simpl.
    destruct (insert_notification_row _ _ _ _ _ _ _) as [[d' r]|e] eqn:E; simpl;
      [rewrite (insert_notification_appointments _ _ _ _ _ _ _ _ _ E)|]; reflexivity.
  - unfold complete_appointment. enter_doctor_route Hu Hr. rewrite Hf. reflexivity.
Qed.

Lemma count_after_update (p : appointment -> bool) aid st l a :
  NoDup (map a_id l) -> In a l -> a_id a = aid ->
  (length (filter p (map (fun x => if Nat.eqb (a_id x) aid then with_status x st else x) l))
   + (if p a then 1 else 0) =
   length (filter p l) + (if p (with_status a st) then 1 else 0))%nat.
Proof.
  intros Hnd Hin Ha. subst aid. revert Hnd Hin.
  induction l as [|x l IH]; intros Hnd Hin; [destruct Hin|].
  inversion Hnd as [|? ? Hx Hl]; subst. cbn [map].
  destruct Hin as [->|Hin].
  - rewrite Nat.eqb_refl.
    erewrite (map_ext_in _ (fun y => y) l), map_id.
    + cbn [filter]. destruct (p (with_status a st)), (p a); cbn [length]; lia.
    + intros y Hy. destruct (Nat.eqb (a_id y) (a_id a)) eqn:E; [|reflexivity].
      apply Nat.eqb_eq in E. exfalso. apply Hx. rewrite <- E. apply in_map. exact Hy.
  - assert (Hxa : Nat.eqb (a_id x) (a_id a) = false).
    { apply Nat.eqb_neq. intros E. apply Hx. rewrite E. apply in_map. exact Hin. }
    rewrite Hxa. specialize (IH Hl Hin). cbn [filter]. destruct (p x); cbn [length]; lia.
Qed.

Lemma filter_update_patients (p : appointment -> bool) aid st l :
  (forall x, In x l -> a_id x = aid -> p (with_status x st) = p x) ->
  map patient_id (filter p (map (fun x => if Nat.eqb (a_id x) aid then with_status x st else x) l))
  = map patient_id (filter p l).
Proof.
  induction l as [|x l IH]; intros H; cbn [map filter]; [reflexivity|].
  assert (IH' : map patient_id (filter p (map (fun x => if Nat.eqb (a_id x) aid
                   then with_status x st else x) l)) = map patient_id (filter p l))
    by (apply IH; intros y Hy; apply H; right; exact Hy).
  destruct (Nat.eqb (a_id x) aid) eqn:E.
  - apply Nat.eqb_eq in E. rewrite (H x (or_introl eq_refl) E).
    destruct (p x); cbn [map]; rewrite IH'; reflexivity.
  - destruct (p x); cbn [map]; rewrite IH'; reflexivity.
Qed.

Lemma count_update_same (p : appointment -> bool) aid st l :
  (forall x, In x l -> a_id x = aid -> p (with_status x st) = p x) ->
  length (filter p (map (fun x => if Nat.eqb (a_id x) aid then with_status x st else x) l))
  = length (filter p l).
Proof.
  intros H. rewrite <- (length_map patient_id), filter_update_patients by exact H.
  apply length_map.
Qed.

Lemma find_appointment_in d aid a :
  find_appointment d aid = Some a -> In a (appointments d) /\ a_id a = aid.
Proof.
  unfold find_appointment. intros H. apply find_some in H as [H1 H2].
  apply Nat.eqb_eq in H2. auto.
Qed.

Lemma nodup_id_unique (l : list appointment) x y :
  NoDup (map a_id l) -> In x l -> In y l -> a_id x = a_id y -> x = y.
Proof.
  induction l as [|z l IH]; intros Hnd Hx Hy Hxy; [destruct Hx|].
  inversion Hnd as [|? ? Hz Hl]; subst.
  destruct Hx as [->|Hx], Hy as [->|Hy]; try reflexivity.
  - exfalso. apply Hz. rewrite Hxy. apply in_map. exact Hy.
  - exfalso. apply Hz. rewrite <- Hxy. apply in_map. exact Hx.
  - exact (IH Hl Hx Hy Hxy).
Qed.

(** X4: with unique appointment ids, accepting a PENDING appointment lowers its doctor's pending count by one and raises the today count when its date is today; rejecting it lowers the pending count by one and keeps the today and patient counts; completing a CONFIRMED appointment keeps all three counters; and the counters of every other doctor are unchanged by the three routes. *)
Theorem doctor_stats_follow_transitions sess uid aid s a today :
  s_user_id sess = Some uid -> s_role sess = Some DOCTOR -> faults s = [] ->
  NoDup (map a_id (appointments (db_of s))) ->
  find_appointment (db_of s) aid = Some a ->
  (status a = PENDING ->
     (exists st st',
        fst (get_doctor_stats today (doctor_id a) s) = Ok st /\
        fst (get_doctor_stats today (doctor_id a) (snd (accept_appointment sess aid s))) = Ok st' /\
        (pending_appointments st' + 1 = pending_appointments st)%nat /\
        today_appointments st' =
          (today_appointments st + if String.eqb (date a) today then 1 else 0)%nat) /\
     (exists st st',
        fst (get_doctor_stats today (doctor_id a) s) = Ok st /\
        fst (get_doctor_stats today (doctor_id a) (snd (reject_appointment sess aid s))) = Ok st' /\
        (pending_appointments st' + 1 = pending_appointments st)%nat /\
        today_appointments st' = today_appointments st /\
        total_patients st' = total_patients st)) /\
  (status a = CONFIRMED ->
     fst (get_doctor_stats today (doctor_id a) (snd (complete_appointment sess aid s))) =
     fst (get_doctor_stats today (doctor_id a) s)) /\
  (forall did, did <> doctor_id a ->
     fst (get_doctor_stats today did (snd (accept_appointment sess aid s))) =
       fst (get_doctor_stats today did s) /\
     fst (get_doctor_stats today did (snd (reject_appointment sess aid s))) =
       fst (get_doctor_stats today did s) /\
     fst (get_doctor_stats today did (snd (complete_appointment sess aid s))) =
       fst (get_doctor_stats today did s)).
Proof.
  intros Hu Hr Hf Hnd Ha.
  destruct (find_appointment_in _ _ _ Ha) as [Hin Hid].
  destruct (transition_routes_appointments sess uid aid s Hu Hr Hf) as [Hacc [Hrej Hcom]].
  (* the changed row is [a] *)
  assert (Honly : forall x, In x (appointments (db_of s)) -> a_id x = aid -> x = a)
    by (intros x Hx Hxa; exact (nodup_id_unique _ x a Hnd Hx Hin (eq_trans Hxa (eq_sym Hid)))).
  split; [|split].
  - intros Hst. split.
    + rewrite !get_doctor_stats_run. cbn [fst]. eexists _, _. split; [reflexivity|].
      split; [reflexivity|]. cbn [pending_appointments today_appointments]. rewrite Hacc.
      split.
      * pose proof (count_after_update (fun a0 => Nat.eqb (doctor_id a0) (doctor_id a)
                      && status_eqb (status a0) PENDING) aid CONFIRMED _ a Hnd Hin Hid) as H.
        cbn [with_status status doctor_id] in H. rewrite Nat.eqb_refl, Hst in H.
        cbn in H. lia.
      * pose proof (count_after_update (fun a0 => Nat.eqb (doctor_id a0) (doctor_id a)
                      && String.eqb (date a0) today && confirmed_or_completed (status a0))
                      aid CONFIRMED _ a Hnd Hin Hid) as H.
        cbn [with_status status doctor_id date] in H. rewrite Nat.eqb_refl, Hst in H.
        cbn [andb confirmed_or_completed status_eqb orb] in H.
        rewrite andb_false_r, andb_true_r in H. cbn in H. lia.
    + rewrite !get_doctor_stats_run. cbn [fst]. eexists _, _. split; [reflexivity|].
      split; [reflexivity|].
      cbn [pending_appointments today_appointments total_patients]. rewrite Hrej.
      split; [|split].
      * pose proof (count_after_update (fun a0 => Nat.eqb (doctor_id a0) (doctor_id a)
                      && status_eqb (status a0) PENDING) aid REJECTED _ a Hnd Hin Hid) as H.
        cbn [with_status status doctor_id] in H. rewrite Nat.eqb_refl, Hst in H.
        cbn in H. lia.
      * apply count_update_same. intros x Hx Hxa. rewrite (Honly x Hx Hxa).
        cbn [with_status status doctor_id date]. rewrite Hst. reflexivity.
      * rewrite filter_update_patients; [reflexivity|]. intros x Hx Hxa.
        rewrite (Honly x Hx Hxa). cbn [with_status status doctor_id]. rewrite Hst.
        reflexivity.
  - intros Hst. rewrite !get_doctor_stats_run, Hcom. cbn [fst db_of].
    rewrite (count_update_same _ aid COMPLETED), (count_update_same _ aid COMPLETED),
      filter_update_patients; [reflexivity| | |];
      intros x Hx Hxa; rewrite (Honly x Hx Hxa); cbn [with_status status doctor_id date];
      rewrite Hst; reflexivity.
  - intros did Hdid. assert (Hdid2 : Nat.eqb (doctor_id a) did = false) by (apply Nat.eqb_neq; congruence).
    rewrite !get_doctor_stats_run, Hacc, Hrej, Hcom. cbn [fst].
    split; [|split];
      (rewrite count_update_same, count_update_same, filter_update_patients;
         [reflexivity| | |];
       intros x Hx Hxa; rewrite (Honly x Hx Hxa); cbn [with_status status doctor_id date];
       rewrite Hdid2; reflexivity).
Qed.

Lemma get_doctor_patients_run did s :
  get_doctor_patients did s =
    (Ok (sort_by later_visit
          (map (group_row (db_of s) (roster_join (db_of s) did))
               (nodup Nat.eq_dec (map (fun '(u, _, _) => u_id u) (roster_join (db_of s) did))))), s).
Proof. reflexivity. Qed.

(** X5: the patients page of a doctor never lists more patients than the dashboard's total_patients, and lists exactly that many when each of the doctor's CONFIRMED or COMPLETED appointments has a user row and a patient_details row for its patient. *)
Theorem roster_within_patient_count did today s :
  exists st roster,
    fst (get_doctor_stats today did s) = Ok st /\
    fst (get_doctor_patients did s) = Ok roster /\
    (length roster <= total_patients st)%nat /\
    ((forall a, In a (appointments (db_of s)) -> doctor_id a = did ->
        confirmed_or_completed (status a) = true ->
        (exists u, find_user (db_of s) (patient_id a) = Some u) /\
        (exists p, find_patient_detail (db_of s) (patient_id a) = Some p)) ->
     length roster = total_patients st).
Proof.
  rewrite get_doctor_stats_run, get_doctor_patients_run. cbn [fst].
  eexists _, _. split; [reflexivity|]. split; [reflexivity|].
  cbn [total_patients]. set (d := db_of s). set (rows := roster_join d did).
  set (ids := nodup Nat.eq_dec (map (fun '(u, _, _) => u_id u) rows)).
  set (T := nodup Nat.eq_dec (map patient_id (filter (fun a => Nat.eqb (doctor_id a) did
              && confirmed_or_completed (status a)) (appointments d)))).
  assert (Hlen : length (sort_by later_visit (map (group_row d rows) ids)) = length ids).
  { rewrite <- (length_map (group_row d rows) ids).
    apply Permutation_length. apply sort_by_perm. }
  rewrite Hlen.
  assert (Hsub : incl ids T).
  { intros pid Hpid. unfold ids in Hpid. rewrite nodup_In, in_map_iff in Hpid.
    destruct Hpid as [[[u p] a] [Hu Hin]]. apply roster_join_In in Hin as [Ha [Hd [Hc [Fu Fp]]]].
    rewrite (find_user_id _ _ _ Fu) in Hu. subst pid.
    unfold T. rewrite nodup_In. apply in_map, filter_In. split; [exact Ha|].
    rewrite Hd, Nat.eqb_refl, Hc. reflexivity. }
  assert (Hle : (length ids <= length T)%nat) by (apply NoDup_incl_length; [apply NoDup_nodup|exact Hsub]).
  split; [exact Hle|]. intros Hall. apply Nat.le_antisymm; [exact Hle|].
  apply NoDup_incl_length; [apply NoDup_nodup|].
  intros pid Hpid. unfold T in Hpid. rewrite nodup_In, in_map_iff in Hpid.
  destruct Hpid as [a [<- Ha]]. apply filter_In in Ha as [Ha Hpa].
  apply andb_true_iff in Hpa as [Hd Hc]. apply Nat.eqb_eq in Hd.
  destruct (Hall a Ha Hd Hc) as [[u Fu] [p Fp]].
  unfold ids. rewrite nodup_In, in_map_iff. exists (u, p, a).
  split; [exact (find_user_id _ _ _ Fu)|]. apply roster_join_In. auto.
Qed.

Lemma string_ltb_irrefl x : String.ltb x x = false.
Proof. unfold String.ltb. rewrite string_compare_refl. reflexivity. Qed.

Lemma string_leb_neq_ltb x y : String.leb x y = true -> x <> y -> String.ltb x y = true.
Proof.
  unfold String.leb, String.ltb. intros H Hne.
  destruct (String.compare x y) eqn:E; try reflexivity; try discriminate.
  exfalso. apply Hne. apply String.compare_eq_iff. exact E.
Qed.

Lemma string_ltb_trans x y z :
  String.ltb x y = true -> String.ltb y z = true -> String.ltb x z = true.
Proof.
  intros H1 H2. apply string_leb_neq_ltb.
  - exact (string_leb_trans _ _ _ (string_ltb_leb _ _ H1) (string_ltb_leb _ _ H2)).
  - intros Exz. subst z. assert (E : x = y).
    { apply String.leb_antisym; [exact (string_ltb_leb _ _ H1)|exact (string_ltb_leb _ _ H2)]. }
    subst y. rewrite string_ltb_irrefl in H1. discriminate.
Qed.

Lemma slot_not_before_trans x y z :
  slot_not_before x y -> slot_not_before y z -> slot_not_before x z.
Proof.
  unfold slot_not_before.
  intros [H1|[E1 H1]] [H2|[E2 H2]].
  - left. exact (string_ltb_trans _ _ _ H2 H1).
  - left. rewrite E2. exact H1.
  - left. rewrite <- E1. exact H2.
  - right. split; [congruence|]. exact (string_leb_trans _ _ _ H2 H1).
Qed.

Lemma later_slot_true x y : later_slot x y = true -> slot_not_before x y.
Proof.
  unfold later_slot, slot_not_before. intros H.
  apply orb_true_iff in H as [H|H]; [left; exact H|].
  apply andb_true_iff in H as [E H]. apply String.eqb_eq in E.
  right. split; [exact E|exact (string_ltb_leb _ _ H)].
Qed.

Lemma later_slot_false x y : later_slot x y = false -> slot_not_before y x.
Proof.
  unfold later_slot, slot_not_before. intros H.
  apply orb_false_iff in H as [H1 H2]. apply string_ltb_false in H1.
  destruct (String.eqb (date (pa_appointment x)) (date (pa_appointment y))) eqn:E.
  - apply String.eqb_eq in E. rewrite E in H2. rewrite String.eqb_refl in H2.
    cbn in H2. apply string_ltb_false in H2. right. split; [exact E|exact H2].
  - left. apply string_leb_neq_ltb; [exact H1|]. apply String.eqb_neq. exact E.
Qed.

Lemma sorted_filter_trans {A} (R : A -> A -> Prop) (f : A -> bool) l :
  (forall x y z, R x y -> R y z -> R x z) -> Sorted R l -> Sorted R (filter f l).
Proof.
  intros Htr H. apply StronglySorted_Sorted. apply Sorted_StronglySorted in H;
    [|intros x y z; apply Htr].
  induction H as [|x l Hs IH Hall]; cbn [filter]; [constructor|].
  destruct (f x); [|exact IH]. constructor; [exact IH|].
  apply Forall_forall. intros y Hy. apply filter_In in Hy as [Hy _].
  rewrite Forall_forall in Hall. exact (Hall y Hy).
Qed.

Lemma in_sort_by {A} (before : A -> A -> bool) x l : In x (sort_by before l) <-> In x l.
Proof.
  split; apply Permutation_in; [|apply Permutation_sym]; apply sort_by_perm.
Qed.

Lemma get_doctor_appointments_In did s rows s' a nm :
  get_doctor_appointments did s = (Ok rows, s') ->
  In (a, nm) rows <->
  In a (appointments (db_of s)) /\ doctor_id a = did /\
  exists u, find_user (db_of s) (patient_id a) = Some u /\ nm = full_name u.
Proof.
  unfold get_doctor_appointments, query. intros H. injection H as <- <-.
  rewrite in_sort_by, in_flat_map. split.
  - intros [a' [Ha' Hin]]. destruct (Nat.eqb (doctor_id a') did) eqn:E; [|destruct Hin].
    apply Nat.eqb_eq in E. destruct (find_user (db_of s) (patient_id a')) as [u|] eqn:Fu;
      [|destruct Hin].
    destruct Hin as [Heq|[]]. inversion Heq; subst. split; [exact Ha'|]. split; [reflexivity|].
    exists u. auto.
  - intros [Ha [Hd [u [Fu ->]]]]. exists a. split; [exact Ha|].
    rewrite Hd, Nat.eqb_refl, Fu. left. reflexivity.
Qed.

(** X6: get_doctor_appointments changes nothing and returns exactly the pairs of an appointment of the doctor whose patient has a user row and that patient's name, newest created first. *)
Theorem doctor_appointments_rows did s :
  exists rows,
    get_doctor_appointments did s = (Ok rows, s) /\
    (forall a nm, In (a, nm) rows <->
       In a (appointments (db_of s)) /\ doctor_id a = did /\
       exists u, find_user (db_of s) (patient_id a) = Some u /\ nm = full_name u) /\
    Sorted (fun x y => a_created_at (fst y) <= a_created_at (fst x)) rows.
Proof.
  eexists. split; [reflexivity|]. split.
  - intros a nm. apply (get_doctor_appointments_In did s _ s). reflexivity.
  - apply sort_by_sorted.
    + intros x y H. unfold newer_request in H. apply Z.ltb_lt in H. lia.
    + intros x y H. unfold newer_request in H. apply Z.ltb_ge in H. lia.
Qed.

Lemma patient_view_In dds uid s rows s' r :
  patient_appointments_view dds uid s = (Ok rows, s') ->
  In r rows <->
  In (pa_appointment r) (appointments (db_of s)) /\
  patient_id (pa_appointment r) = uid /\
  status (pa_appointment r) <> REJECTED /\
  exists u dd, find_user (db_of s) (doctor_id (pa_appointment r)) = Some u /\
               find_doctor_detail dds (doctor_id (pa_appointment r)) = Some dd /\
               doctor_name_of r = full_name u /\ pa_specialization r = specialization dd.
Proof.
  unfold patient_appointments_view, get_patient_appointments, bind, query, ret.
  intros H. injection H as <- <-. rewrite filter_In.
  rewrite in_sort_by, in_flat_map.
  assert (Hst : negb (status_eqb (status (pa_appointment r)) REJECTED) = true <->
                status (pa_appointment r) <> REJECTED)
    by (destruct (status (pa_appointment r)); cbn; split; congruence).
  rewrite Hst. split.
  - intros [[a [Ha Hin]] Hnr]. destruct (Nat.eqb (patient_id a) uid) eqn:E; [|destruct Hin].
    apply Nat.eqb_eq in E.
    destruct (find_user (db_of s) (doctor_id a)) as [u|] eqn:Fu; [|destruct Hin].
    destruct (find_doctor_detail dds (doctor_id a)) as [dd|] eqn:Fd; [|destruct Hin].
    destruct Hin as [<-|[]]. cbn [pa_appointment doctor_name_of pa_specialization] in *.
    split; [exact Ha|]. split; [exact E|]. split; [exact Hnr|]. exists u, dd. auto.
  - intros [Ha [Hp [Hnr [u [dd [Fu [Fd [Hn Hs]]]]]]]]. split; [|exact Hnr].
    exists (pa_appointment r). split; [exact Ha|].
    rewrite Hp, Nat.eqb_refl, Fu, Fd. left.
    destruct r as [a nm sp]. cbn in *. subst. reflexivity.
Qed.

(** X7: the patient appointments page changes nothing and shows exactly the patient's appointments that are not REJECTED and whose doctor has a user row and a doctor_details row, with that name and specialization, ordered by date and time, latest first. *)
Theorem patient_view_rows dds uid s :
  exists rows,
    patient_appointments_view dds uid s = (Ok rows, s) /\
    (forall r, In r rows <->
       In (pa_appointment r) (appointments (db_of s)) /\
       patient_id (pa_appointment r) = uid /\
       status (pa_appointment r) <> REJECTED /\
       exists u dd, find_user (db_of s) (doctor_id (pa_appointment r)) = Some u /\
                    find_doctor_detail dds (doctor_id (pa_appointment r)) = Some dd /\
                    doctor_name_of r = full_name u /\ pa_specialization r = specialization dd) /\
    Sorted slot_not_before rows.
Proof.
  eexists. split; [reflexivity|]. split.
  - intros r. apply (patient_view_In dds uid s _ s). reflexivity.
  - apply sorted_filter_trans; [exact slot_not_before_trans|].
    apply sort_by_sorted; [exact later_slot_true|exact later_slot_false].
Qed.

Lemma create_appointment_run pid did dt tm sym s :
  faults s = [] -> user_exists (db_of s) pid = true -> user_exists (db_of s) did = true ->
  exists u, find_user (db_of s) pid = Some u /\
  let d := db_of s in
  let aid := S (seq_appointments d) in
  create_appointment pid did dt tm sym s =
    (Ok aid,
     mk_st (mk_db (users d) (patient_details d)
              (appointments d ++ [mk_appointment aid pid did dt tm sym PENDING (now d)])
              (prescriptions d) (uploads d)
              (notifications d ++
                 [mk_notification (S (seq_notifications d)) did APPOINTMENT_REQUESTED
                    (requested_message (full_name u) dt tm) (Some "/doctor/appointments"%string)
                    false (Some aid) None (now d)])
              aid (seq_prescriptions d) (S (seq_notifications d)) (now d)) []).
Proof.
  destruct s as [d fl]. cbn [faults db_of]. intros -> Ep Ed.
  destruct (user_exists_find _ _ Ep) as [u Hu]. exists u. split; [exact Hu|].
  cbn zeta. unfold create_appointment, bind, query, ret, create_notification, execute_write,
    next_fault. cbn [faults db_of].
  unfold insert_appointment_row. rewrite Ep, Ed. cbn [andb db_of].
  unfold find_user in *. cbn [users]. rewrite Hu. cbn [option_map Nat.ltb Nat.leb].
  unfold insert_notification_row. cbn [users appointments opt_ref].
  unfold user_exists in Ed. unfold user_exists, appointment_exists. cbn [users appointments].
  cbn [faults db_of users appointments opt_ref]. rewrite Ed, existsb_app. cbn [existsb]. rewrite Nat.eqb_refl, orb_true_r. cbn.
  reflexivity.
Qed.

Lemma create_appointment_rejects pid did dt tm sym s :
  faults s = [] -> user_exists (db_of s) pid = false \/ user_exists (db_of s) did = false ->
  create_appointment pid did dt tm sym s = (Err IntegrityError, s).
Proof.
  destruct s as [d fl]. cbn [faults db_of]. intros -> Hno.
  unfold create_appointment, bind, execute_write, next_fault. cbn [faults db_of].
  unfold insert_appointment_row.
  destruct Hno as [E|E]; rewrite E; [|rewrite andb_false_r]; reflexivity.
Qed.

(** X8: a booking with a missing field, a doctor id that is not an integer, a doctor id naming no user, or a patient with no user row redirects back to the booking form with a danger message and leaves the database unchanged. *)
Theorem book_appointment_rejected sess uid form s :
  s_user_id sess = Some uid -> s_role sess = Some PATIENT -> faults s = [] ->
  (truthy (b_doctor_id form) = false \/ truthy (b_date form) = false \/
   truthy (b_time form) = false \/
   py_int (get_or_empty (b_doctor_id form)) = None \/
   (exists z, py_int (get_or_empty (b_doctor_id form)) = Some z /\
              (z < 0 \/ user_exists (db_of s) (Z.to_nat z) = false)) \/
   user_exists (db_of s) uid = false) ->
  book_appointment sess form s =
    (Ok (Redirect "danger" "patient.book_appointment"), s).
Proof.
  intros Hu Hr Hf Hcase.
  unfold book_appointment, flask_route, role_required. rewrite Hu, Hr. cbn [role_eqb].
  destruct (truthy (b_doctor_id form)) eqn:T1, (truthy (b_date form)) eqn:T2,
    (truthy (b_time form)) eqn:T3; cbn [negb orb]; try reflexivity.
  destruct (py_int (get_or_empty (b_doctor_id form))) as [z|] eqn:P; [|reflexivity].
  destruct (z <? 0) eqn:Z.
  - destruct s as [d fl]. cbn [faults] in Hf. subst fl. reflexivity.
  - assert (Hno : user_exists (db_of s) uid = false \/
                  user_exists (db_of s) (Z.to_nat z) = false).
    { destruct Hcase as [H|[H|[H|[H|[[z' [Hz' H]]|H]]]]]; try congruence; [|left; exact H].
      inversion Hz'; subst z'. apply Z.ltb_ge in Z. destruct H as [H|H]; [lia|right; exact H]. }
    unfold try_except, bind. cbv beta.
    rewrite (create_appointment_rejects _ _ _ _ _ _ Hf Hno). reflexivity.
Qed.

Lemma py_int_truthy o z : py_int (get_or_empty o) = Some z -> truthy o = true.
Proof.
  destruct o as [ds|]; cbn [get_or_empty truthy]; [|discriminate].
  destruct (String.eqb ds EmptyString) eqn:E; [|reflexivity].
  apply String.eqb_eq in E. subst ds. discriminate.
Qed.

Lemma book_appointment_run sess uid form did s :
  s_user_id sess = Some uid -> s_role sess = Some PATIENT -> faults s = [] ->
  truthy (b_date form) = true -> truthy (b_time form) = true ->
  py_int (get_or_empty (b_doctor_id form)) = Some (Z.of_nat did) ->
  user_exists (db_of s) uid = true -> user_exists (db_of s) did = true ->
  let sy := strip (get_or_empty (b_symptoms form)) in
  let d := db_of s in
  let aid := S (seq_appointments d) in
  exists u, find_user d uid = Some u /\
  book_appointment sess form s =
    (Ok (Redirect "success" "patient.appointments"),
     mk_st (mk_db (users d) (patient_details d)
              (appointments d ++ [mk_appointment aid uid did (get_or_empty (b_date form))
                 (get_or_empty (b_time form)) (if String.eqb sy EmptyString then None else Some sy)
                 PENDING (now d)])
              (prescriptions d) (uploads d)
              (notifications d ++
                 [mk_notification (S (seq_notifications d)) did APPOINTMENT_REQUESTED
                    (requested_message (full_name u) (get_or_empty (b_date form))
                       (get_or_empty (b_time form)))
                    (Some "/doctor/appointments"%string) false (Some aid) None (now d)])
              aid (seq_prescriptions d) (S (seq_notifications d)) (now d)) []).
Proof.
  intros Hu Hr Hf T2 T3 P Ep Ed sy d aid.
  pose proof (py_int_truthy _ _ P) as T1.
  destruct (create_appointment_run uid did (get_or_empty (b_date form))
              (get_or_empty (b_time form)) (if String.eqb sy EmptyString then None else Some sy)
              s Hf Ep Ed) as [u [Fu Hrun]].
  exists u. split; [exact Fu|].
  unfold book_appointment, flask_route, role_required. rewrite Hu, Hr. cbn [role_eqb].
  rewrite T1, T2, T3. cbn [negb orb]. rewrite P.
  assert (Hz : (Z.of_nat did <? 0) = false) by (apply Z.ltb_ge; lia).
  rewrite Hz, Nat2Z.id. unfold try_except, bind. cbv beta. fold sy.
  rewrite Hrun. reflexivity.
Qed.

(** X9: a valid booking redirects to the appointments page, appends one PENDING appointment with the next id (symptoms stripped, None when blank) and changes no user; the doctor's pending count rises by one with the other counters kept; only the doctor's unread count rises, by one; and the doctor's appointment list shows the new row with the patient's name. *)
Theorem book_appointment_books sess uid form did s :
  s_user_id sess = Some uid -> s_role sess = Some PATIENT -> faults s = [] ->
  truthy (b_date form) = true -> truthy (b_time form) = true ->
  py_int (get_or_empty (b_doctor_id form)) = Some (Z.of_nat did) ->
  user_exists (db_of s) uid = true -> user_exists (db_of s) did = true ->
  let sy := strip (get_or_empty (b_symptoms form)) in
  let row := mk_appointment (S (seq_appointments (db_of s))) uid did
               (get_or_empty (b_date form)) (get_or_empty (b_time form))
               (if String.eqb sy EmptyString then None else Some sy)
               PENDING (now (db_of s)) in
  exists s',
    book_appointment sess form s = (Ok (Redirect "success" "patient.appointments"), s') /\
    appointments (db_of s') = appointments (db_of s) ++ [row] /\
    users (db_of s') = users (db_of s) /\
    (forall today, exists st st',
       fst (get_doctor_stats today did s) = Ok st /\
       fst (get_doctor_stats today did s') = Ok st' /\
       pending_appointments st' = S (pending_appointments st) /\
       today_appointments st' = today_appointments st /\
       total_patients st' = total_patients st) /\
    (forall v, exists c,
       fst (get_unread_notification_count v s) = Ok c /\
       fst (get_unread_notification_count v s') = Ok (c + if Nat.eqb v did then 1 else 0)%nat) /\
    (exists rows u,
       fst (get_doctor_appointments did s') = Ok rows /\
       find_user (db_of s) uid = Some u /\ In (row, full_name u) rows).
Proof.
  intros Hu Hr Hf T2 T3 P Ep Ed sy row.
  destruct (book_appointment_run sess uid form did s Hu Hr Hf T2 T3 P Ep Ed) as [u [Fu Hrun]].
  cbn zeta in Hrun. eexists. split; [exact Hrun|].
  cbn [db_of appointments users notifications]. split; [reflexivity|]. split; [reflexivity|].
  split; [|split].
  - intros today. rewrite !get_doctor_stats_run. cbn [fst db_of appointments].
    eexists _, _. split; [reflexivity|]. split; [reflexivity|].
    cbn [pending_appointments today_appointments total_patients].
    rewrite !filter_app, !length_app. unfold row. cbn [filter doctor_id status date].
    rewrite Nat.eqb_refl. cbn [andb status_eqb confirmed_or_completed orb length].
    rewrite andb_false_r, app_nil_r. cbn [length]. rewrite !Nat.add_0_r, Nat.add_1_r.
    split; [reflexivity|]. split; reflexivity.
  - intros v. unfold get_unread_notification_count, query. cbn [fst db_of notifications].
    eexists. split; [reflexivity|]. rewrite filter_app, length_app. cbn [filter n_user_id is_read].
    rewrite (Nat.eqb_sym did v). destruct (Nat.eqb v did); reflexivity.
  - eexists _, u. split; [reflexivity|]. split; [exact Fu|].
    eapply (get_doctor_appointments_In did _ _ _ row (full_name u)); [reflexivity|].
    cbn [db_of appointments]. split; [apply in_or_app; right; left; reflexivity|].
    split; [reflexivity|]. exists u. split; [exact Fu|reflexivity].
Qed.

Lemma create_appointment_fault_run pid did dt tm sym s :
  faults s = [false; true] ->
  user_exists (db_of s) pid = true -> user_exists (db_of s) did = true ->
  let d := db_of s in
  let aid := S (seq_appointments d) in
  create_appointment pid did dt tm sym s =
    (Err OperationalError,
     mk_st (mk_db (users d) (patient_details d)
              (appointments d ++ [mk_appointment aid pid did dt tm sym PENDING (now d)])
              (prescriptions d) (uploads d) (notifications d)
              aid (seq_prescriptions d) (seq_notifications d) (now d)) []).
Proof.
  destruct s as [d fl]. cbn [faults db_of]. intros -> Ep Ed.
  destruct (user_exists_find _ _ Ep) as [u Hu].
  cbn zeta. unfold create_appointment, bind, query, ret, create_notification, execute_write,
    next_fault. cbn [faults db_of].
  unfold insert_appointment_row. rewrite Ep, Ed. cbn [andb db_of faults].
  unfold find_user in *. cbn [users]. rewrite Hu. cbn [option_map Nat.ltb Nat.leb].
  reflexivity.
Qed.

(** X10: when the notification insert of a valid booking fails, the route reports a danger message but the appointment row stays appended and no notification is added. *)
Theorem book_appointment_fault_keeps_row sess uid form did s :
  s_user_id sess = Some uid -> s_role sess = Some PATIENT -> faults s = [false; true] ->
  truthy (b_date form) = true -> truthy (b_time form) = true ->
  py_int (get_or_empty (b_doctor_id form)) = Some (Z.of_nat did) ->
  user_exists (db_of s) uid = true -> user_exists (db_of s) did = true ->
  let sy := strip (get_or_empty (b_symptoms form)) in
  exists s',
    book_appointment sess form s = (Ok (Redirect "danger" "patient.book_appointment"), s') /\
    appointments (db_of s') = appointments (db_of s) ++
      [mk_appointment (S (seq_appointments (db_of s))) uid did
         (get_or_empty (b_date form)) (get_or_empty (b_time form))
         (if String.eqb sy EmptyString then None else Some sy) PENDING (now (db_of s))] /\
    notifications (db_of s') = notifications (db_of s).
Proof.
  intros Hu Hr Hf T2 T3 P Ep Ed sy.
  pose proof (py_int_truthy _ _ P) as T1.
  pose proof (create_appointment_fault_run uid did (get_or_empty (b_date form))
              (get_or_empty (b_time form)) (if String.eqb sy EmptyString then None else Some sy)
              s Hf Ep Ed) as Hrun.
  cbn zeta in Hrun. eexists. split.
  { unfold book_appointment, flask_route, role_required. rewrite Hu, Hr. cbn [role_eqb].
    rewrite T1, T2, T3. cbn [negb orb]. rewrite P.
    assert (Hz : (Z.of_nat did <? 0) = false) by (apply Z.ltb_ge; lia).
    rewrite Hz, Nat2Z.id. unfold try_except, bind. cbv beta. fold sy.
    rewrite Hrun. reflexivity. }
  split; reflexivity.
Qed.

Lemma fk_iff d : foreign_keys_hold d = true <->
  (forall p, In p (patient_details d) -> user_exists d (pd_user_id p) = true) /\
  (forall a, In a (appointments d) ->
     user_exists d (patient_id a) && user_exists d (doctor_id a) = true) /\
  (forall p, In p (prescriptions d) ->
     user_exists d (p_doctor_id p) && user_exists d (p_patient_id p)
     && opt_ref (appointment_exists d) (p_appointment_id p) = true) /\
  (forall u, In u (uploads d) -> user_exists d (up_patient_id u) = true) /\
  (forall n, In n (notifications d) ->
     user_exists d (n_user_id n) && opt_ref (appointment_exists d) (n_appointment_id n)
     && opt_ref (prescription_exists d) (n_prescription_id n) = true).
Proof.
  unfold foreign_keys_hold. rewrite !andb_true_iff, !forallb_forall. cbv beta. tauto.
Qed.

Lemma appointment_exists_iff d x :
  appointment_exists d x = true <-> exists a, In a (appointments d) /\ a_id a = x.
Proof.
  unfold appointment_exists. rewrite existsb_exists.
  split; intros [a [H1 H2]]; exists a; split; auto; apply Nat.eqb_eq; auto.
Qed.

Lemma prescription_exists_iff d x :
  prescription_exists d x = true <-> exists p, In p (prescriptions d) /\ p_id p = x.
Proof.
  unfold prescription_exists. rewrite existsb_exists.
  split; intros [a [H1 H2]]; exists a; split; auto; apply Nat.eqb_eq; auto.
Qed.

Lemma opt_ref_mono (e1 e2 : nat -> bool) r :
  (forall x, e1 x = true -> e2 x = true) -> opt_ref e1 r = true -> opt_ref e2 r = true.
Proof. destruct r; cbn; auto. Qed.

Lemma fk_transfer d d' :
  foreign_keys_hold d = true ->
  users d' = users d -> patient_details d' = patient_details d ->
  (forall a, In a (appointments d') ->
     user_exists d (patient_id a) && user_exists d (doctor_id a) = true) ->
  (forall p, In p (prescriptions d') ->
     user_exists d (p_doctor_id p) && user_exists d (p_patient_id p)
     && opt_ref (appointment_exists d') (p_appointment_id p) = true) ->
  (forall u, In u (uploads d') -> user_exists d (up_patient_id u) = true) ->
  (forall n, In n (notifications d') ->
     user_exists d (n_user_id n) && opt_ref (appointment_exists d') (n_appointment_id n)
     && opt_ref (prescription_exists d') (n_prescription_id n) = true) ->
  foreign_keys_hold d' = true.
Proof.
  intros Hd Hu Hp Ha Hpr Hup Hn.
  assert (Hue : forall x, user_exists d' x = user_exists d x)
    by (intros x; unfold user_exists; rewrite Hu; reflexivity).
  apply fk_iff in Hd as [Hpd _].
  apply fk_iff. repeat split; intros; rewrite ?Hue; auto.
  rewrite Hp in *. auto.
Qed.

Ltac fk_parts H :=
  let Hpd := fresh "Hpd" in let Ha := fresh "Ha" in let Hpr := fresh "Hpr" in
  let Hup := fresh "Hup" in let Hn := fresh "Hn" in
  pose proof H as [Hpd [Ha [Hpr [Hup Hn]]]]%fk_iff.

Lemma keeps_ret {A} P (a : A) : keeps P (ret a).
Proof. intros s H. exact H. Qed.

Lemma keeps_raise {A} P e : keeps P (@raise A e).
Proof. intros s H. exact H. Qed.

Lemma keeps_query {A} P (f : db -> A) : keeps P (query f).
Proof. intros s H. exact H. Qed.

Lemma keeps_bind {A B} P (m : M A) (k : A -> M B) :
  keeps P m -> (forall a, keeps P (k a)) -> keeps P (bind m k).
Proof.
  intros Hm Hk s H. unfold bind. specialize (Hm s H).
  destruct (m s) as [[a|e] s'] eqn:E; cbn in *; [exact (Hk a s' Hm)|exact Hm].
Qed.

Lemma keeps_try {A} P (m : M A) (h : exn -> M A) :
  keeps P m -> (forall e, keeps P (h e)) -> keeps P (try_except m h).
Proof.
  intros Hm Hh s H. unfold try_except. specialize (Hm s H).
  destruct (m s) as [[a|e] s'] eqn:E; cbn in *; [exact Hm|exact (Hh e s' Hm)].
Qed.

Lemma keeps_write P (f : db -> res (db * nat)) :
  (forall d d' r, P d = true -> f d = Ok (d', r) -> P d' = true) -> keeps P (execute_write f).
Proof.
  intros Hf s H. unfold execute_write. destruct (next_fault s) as [[|] rest]; [exact H|].
  destruct (f (db_of s)) as [[d' r]|e] eqn:E; cbn; [exact (Hf _ _ _ H E)|exact H].
Qed.

Lemma fk_insert_appointment pid did dt tm sym d d' r :
  foreign_keys_hold d = true -> insert_appointment_row pid did dt tm sym d = Ok (d', r) ->
  foreign_keys_hold d' = true.
Proof.
  intros Hd E. pose proof E as E'. unfold insert_appointment_row in E.
  destruct (user_exists d pid && user_exists d did) eqn:Ec; [|discriminate].
  injection E as <- <-. fk_parts Hd.
  assert (Hae : forall x, appointment_exists d x = true ->
     appointment_exists (mk_db (users d) (patient_details d)
       (appointments d ++ [mk_appointment (S (seq_appointments d)) pid did dt tm sym PENDING (now d)])
       (prescriptions d) (uploads d) (notifications d) (S (seq_appointments d))
       (seq_prescriptions d) (seq_notifications d) (now d)) x = true).
  { intros x. rewrite !appointment_exists_iff. intros [a [Hin Hx]]. exists a.
    split; [apply in_or_app; left; exact Hin|exact Hx]. }
  apply (fk_transfer d); cbn [users patient_details appointments prescriptions uploads
    notifications]; try reflexivity; try exact Hd.
  - intros a Hin. apply in_app_or in Hin as [Hin|[<-|[]]]; [exact (Ha a Hin)|exact Ec].
  - intros p Hin. specialize (Hpr p Hin). apply andb_true_iff in Hpr as [H1 H2].
    rewrite H1. cbn. exact (opt_ref_mono _ _ _ Hae H2).
  - exact Hup.
  - intros n Hin. specialize (Hn n Hin). apply andb_true_iff in Hn as [H1 H3].
    apply andb_true_iff in H1 as [H1 H2]. rewrite H1. cbn.
    rewrite (opt_ref_mono _ _ _ Hae H2). exact H3.
Qed.

Lemma fk_insert_notification uid ty msg lnk aid pid d d' r :
  foreign_keys_hold d = true -> insert_notification_row uid ty msg lnk aid pid d = Ok (d', r) ->
  foreign_keys_hold d' = true.
Proof.
  intros Hd E. unfold insert_notification_row in E.
  destruct (user_exists d uid && opt_ref (appointment_exists d) aid
            && opt_ref (prescription_exists d) pid) eqn:Ec; [|discriminate].
  injection E as <- <-. fk_parts Hd.
  apply (fk_transfer d); cbn [users patient_details appointments prescriptions uploads
    notifications]; try reflexivity; try assumption.
  intros n Hin. apply in_app_or in Hin as [Hin|[<-|[]]]; [exact (Hn n Hin)|exact Ec].
Qed.

Lemma fk_insert_prescription did pid aid diag meds nts d d' r :
  foreign_keys_hold d = true -> insert_prescription_row did pid aid diag meds nts d = Ok (d', r) ->
  foreign_keys_hold d' = true.
Proof.
  intros Hd E. unfold insert_prescription_row in E.
  destruct (user_exists d did && user_exists d pid && opt_ref (appointment_exists d) aid)
    eqn:Ec; [|discriminate].
  injection E as <- <-. fk_parts Hd.
  assert (Hpe : forall x, prescription_exists d x = true ->
     prescription_exists (mk_db (users d) (patient_details d) (appointments d)
       (prescriptions d ++ [mk_prescription (S (seq_prescriptions d)) did pid aid diag meds nts])
       (uploads d) (notifications d) (seq_appointments d) (S (seq_prescriptions d))
       (seq_notifications d) (now d)) x = true).
  { intros x. rewrite !prescription_exists_iff. intros [p [Hin Hx]]. exists p.
    split; [apply in_or_app; left; exact Hin|exact Hx]. }
  apply (fk_transfer d); cbn [users patient_details appointments prescriptions uploads
    notifications]; try reflexivity; try assumption.
  - intros p Hin. unfold appointment_exists in *. cbn [appointments].
    apply in_app_or in Hin as [Hin|[<-|[]]]; [exact (Hpr p Hin)|exact Ec].
  - intros n Hin. specialize (Hn n Hin). apply andb_true_iff in Hn as [H1 H3].
    unfold appointment_exists in *. cbn [appointments].
    rewrite H1. cbn. exact (opt_ref_mono _ _ _ Hpe H3).
Qed.

Lemma fk_update_status aid st d :
  foreign_keys_hold d = true ->
  foreign_keys_hold (set_appointments d
    (map (fun a => if Nat.eqb (a_id a) aid then with_status a st else a) (appointments d))) = true.
Proof.
  intros Hd. fk_parts Hd.
  assert (Hae : forall x, appointment_exists d x = true ->
     appointment_exists (set_appointments d
       (map (fun a => if Nat.eqb (a_id a) aid then with_status a st else a) (appointments d))) x
     = true).
  { intros x. rewrite !appointment_exists_iff. intros [a [Hin Hx]].
    exists (if Nat.eqb (a_id a) aid then with_status a st else a). split.
    - cbn [set_appointments appointments].
      exact (in_map (fun b => if Nat.eqb (a_id b) aid then with_status b st else b) _ _ Hin).
    - destruct (Nat.eqb (a_id a) aid); exact Hx. }
  apply (fk_transfer d); cbn [set_appointments users patient_details appointments
    prescriptions uploads notifications]; try reflexivity; try assumption.
  - intros a Hin. apply in_map_iff in Hin as [b [<- Hin]].
    destruct (Nat.eqb (a_id b) aid); exact (Ha b Hin).
  - intros p Hin. specialize (Hpr p Hin). apply andb_true_iff in Hpr as [H1 H2].
    rewrite H1. cbn. exact (opt_ref_mono _ _ _ Hae H2).
  - intros n Hin. specialize (Hn n Hin). apply andb_true_iff in Hn as [H1 H3].
    apply andb_true_iff in H1 as [H1 H2]. rewrite H1. cbn.
    rewrite (opt_ref_mono _ _ _ Hae H2). exact H3.
Qed.

Lemma fk_set_notifications d l :
  foreign_keys_hold d = true ->
  (forall n, In n l -> exists m, In m (notifications d) /\ n_user_id n = n_user_id m /\
     n_appointment_id n = n_appointment_id m /\ n_prescription_id n = n_prescription_id m) ->
  foreign_keys_hold (set_notifications d l) = true.
Proof.
  intros Hd Hl. fk_parts Hd.
  apply (fk_transfer d); cbn [set_notifications users patient_details appointments
    prescriptions uploads notifications]; try reflexivity.
  - exact Hd.
  - exact Ha.
  - intros p Hin. unfold appointment_exists. cbn [appointments]. exact (Hpr p Hin).
  - exact Hup.
  - intros n Hin. destruct (Hl n Hin) as [m [Hm [E1 [E2 E3]]]]. rewrite E1, E2, E3.
    unfold appointment_exists, prescription_exists. cbn [appointments prescriptions].
    exact (Hn m Hm).
Qed.

Lemma fk_filter_notifications d (f : notification -> bool) :
  foreign_keys_hold d = true ->
  foreign_keys_hold (set_notifications d (filter f (notifications d))) = true.
Proof.
  intros Hd. apply fk_set_notifications; [exact Hd|]. intros n Hin.
  apply filter_In in Hin as [Hin _]. exists n. auto.
Qed.

Lemma fk_delete_upload d uid :
  foreign_keys_hold d = true ->
  foreign_keys_hold (set_uploads d (filter (fun u => negb (Nat.eqb (up_id u) uid)) (uploads d)))
  = true.
Proof.
  intros Hd. fk_parts Hd.
  apply (fk_transfer d); cbn [set_uploads users patient_details appointments
    prescriptions uploads notifications]; try reflexivity.
  - exact Hd.
  - exact Ha.
  - intros p Hin. unfold appointment_exists. cbn [appointments]. exact (Hpr p Hin).
  - intros u Hin. apply filter_In in Hin as [Hin _]. exact (Hup u Hin).
  - intros n Hin. unfold appointment_exists, prescription_exists.
    cbn [appointments prescriptions]. exact (Hn n Hin).
Qed.

Lemma cancel_ref_survives d aid r :
  opt_ref (appointment_exists d) r = true ->
  (match r with
   | Some x => existsb (fun a => Nat.eqb (a_id a) x)
                 (filter (fun a => Nat.eqb (a_id a) aid) (appointments d))
   | None => false
   end) = false ->
  opt_ref (fun x => existsb (fun a => Nat.eqb (a_id a) x)
                      (filter (fun a => negb (Nat.eqb (a_id a) aid)) (appointments d))) r = true.
Proof.
  destruct r as [x|]; cbn [opt_ref]; [|reflexivity]. intros Hx Hdel.
  apply appointment_exists_iff in Hx as [a [Hin Hax]].
  apply existsb_exists. exists a. split; [|apply Nat.eqb_eq; exact Hax].
  apply filter_In. split; [exact Hin|].
  destruct (Nat.eqb (a_id a) aid) eqn:E; [|reflexivity]. exfalso.
  assert (Ht : existsb (fun a => Nat.eqb (a_id a) x)
                 (filter (fun a => Nat.eqb (a_id a) aid) (appointments d)) = true).
  { apply existsb_exists. exists a. split; [apply filter_In; auto|apply Nat.eqb_eq; exact Hax]. }
  congruence.
Qed.

Lemma existsb_map_id {A} (f : A -> nat) (g : A -> A) l x :
  (forall y, f (g y) = f y) ->
  existsb (fun p => Nat.eqb (f p) x) (map g l) = existsb (fun p => Nat.eqb (f p) x) l.
Proof. intros H. induction l as [|y l IH]; cbn; [reflexivity|]. rewrite H, IH. reflexivity. Qed.

Lemma keeps_cancel aid : keeps foreign_keys_hold (cancel_appointment aid).
Proof.
  unfold cancel_appointment. apply keeps_write. intros d d' r Hd E.
  injection E as <- <-. fk_parts Hd.
  apply (fk_transfer d); cbn [set_prescriptions set_notifications set_appointments users
    patient_details appointments prescriptions uploads notifications]; try reflexivity.
  - exact Hd.
  - intros a Hin. apply filter_In in Hin as [Hin _]. exact (Ha a Hin).
  - intros p Hin. apply in_map_iff in Hin as [q [<- Hin]].
    specialize (Hpr q Hin). apply andb_true_iff in Hpr as [H1 H2].
    destruct (match p_appointment_id q with
              | Some x => existsb (fun a => Nat.eqb (a_id a) x)
                            (filter (fun a => Nat.eqb (a_id a) aid) (appointments d))
              | None => false end) eqn:Edel; cbn [p_doctor_id p_patient_id p_appointment_id].
    + rewrite H1. reflexivity.
    + rewrite H1. unfold appointment_exists. cbn [appointments].
      exact (cancel_ref_survives d aid _ H2 Edel).
  - exact Hup.
  - intros n Hin. apply filter_In in Hin as [Hin Hkeep]. apply negb_true_iff in Hkeep.
    specialize (Hn n Hin). apply andb_true_iff in Hn as [H1 H3].
    apply andb_true_iff in H1 as [H1 H2].
    unfold appointment_exists, prescription_exists in *.
    cbn [set_prescriptions set_notifications set_appointments appointments prescriptions].
    rewrite H1, (cancel_ref_survives d aid _ H2 Hkeep). cbn [andb].
    refine (opt_ref_mono _ _ _ _ H3). intros x Hx. rewrite existsb_map_id; [exact Hx|].
    intros y. destruct (p_appointment_id y) as [z|]; [|reflexivity].
    destruct (existsb (fun a => Nat.eqb (a_id a) z)
                (filter (fun a => Nat.eqb (a_id a) aid) (appointments d))); reflexivity.
Qed.

Lemma keeps_update_status aid st :
  keeps foreign_keys_hold (update_appointment_status aid st).
Proof.
  apply keeps_write. intros d d' r Hd E. injection E as <- <-. exact (fk_update_status aid st d Hd).
Qed.

Lemma keeps_create_notification uid ty msg lnk aid pid :
  keeps foreign_keys_hold (create_notification uid ty msg lnk aid pid).
Proof. apply keeps_write. intros d d' r Hd E. exact (fk_insert_notification _ _ _ _ _ _ _ _ _ Hd E). Qed.

Lemma keeps_create_prescription did pid aid diag meds nts :
  keeps foreign_keys_hold (create_prescription did pid aid diag meds nts).
Proof. apply keeps_write. intros d d' r Hd E. exact (fk_insert_prescription _ _ _ _ _ _ _ _ _ Hd E). Qed.

Lemma keeps_delete_upload uid : keeps foreign_keys_hold (delete_uploaded_prescription uid).
Proof. apply keeps_write. intros d d' r Hd E. injection E as <- <-. exact (fk_delete_upload d uid Hd). Qed.

Ltac keeps_step :=
  match goal with
  | |- keeps _ (bind _ _) => apply keeps_bind; [|intros ?; cbv beta]
  | |- keeps _ (try_except _ _) => apply keeps_try; [|intros ?; cbv beta]
  | |- keeps _ (ret _) => apply keeps_ret
  | |- keeps _ (raise _) => apply keeps_raise
  | |- keeps _ (query _) => apply keeps_query
  | |- keeps _ (update_appointment_status _ _) => apply keeps_update_status
  | |- keeps _ (create_notification _ _ _ _ _ _) => apply keeps_create_notification
  | |- keeps _ (create_prescription _ _ _ _ _ _) => apply keeps_create_prescription
  | |- keeps _ (delete_uploaded_prescription _) => apply keeps_delete_upload
  | |- keeps _ (cancel_appointment _) => apply keeps_cancel
  | |- keeps _ (execute_write (insert_appointment_row _ _ _ _ _)) =>
      apply keeps_write; intros ? ? ? ?Hd ?E; exact (fk_insert_appointment _ _ _ _ _ _ _ _ Hd E)
  | |- keeps _ (execute_write (fun d => Ok (set_notifications d (filter _ (notifications d)), _))) =>
      apply keeps_write; intros ? ? ? ?Hd ?E; injection E as <- <-;
      apply fk_filter_notifications; exact Hd
  | |- keeps _ (execute_write (fun _ => Err _)) =>
      apply keeps_write; intros ? ? ? ? ?E; discriminate E
  | |- keeps _ (flask_route _) => unfold flask_route
  | |- keeps _ (role_required _ _ _) => unfold role_required
  | |- keeps _ (let _ := _ in _) => cbv zeta
  | |- context [match ?x with Some _ => _ | None => _ end] => destruct x
  | |- context [if ?b then _ else _] => destruct b
  end.

Lemma keeps_create_appointment pid did dt tm sym :
  keeps foreign_keys_hold (create_appointment pid did dt tm sym).
Proof. unfold create_appointment. repeat keeps_step. Qed.

Lemma keeps_mark_read uid : keeps foreign_keys_hold (mark_notifications_as_read uid).
Proof.
  unfold mark_notifications_as_read. apply keeps_bind; [|intros; apply keeps_ret].
  apply keeps_write. intros d d' r Hd E. injection E as <- <-.
  apply fk_set_notifications; [exact Hd|]. intros n Hin. apply in_map_iff in Hin as [m [<- Hm]].
  exists m. split; [exact Hm|]. destruct (Nat.eqb (n_user_id m) uid && negb (is_read m)); auto.
Qed.

Lemma keeps_filter_notifications (f : db -> notification -> bool) :
  keeps foreign_keys_hold
    (execute_write (fun d => Ok (set_notifications d (filter (f d) (notifications d)), 0%nat))).
Proof.
  apply keeps_write. intros d d' r Hd E. injection E as <- <-.
  apply fk_filter_notifications. exact Hd.
Qed.

Lemma keeps_get_user_notifications uid unread :
  keeps foreign_keys_hold (get_user_notifications uid unread).
Proof.
  unfold get_user_notifications. apply keeps_bind; [|intros; apply keeps_query].
  exact (keeps_filter_notifications (fun d n => negb (read_sweep_deletes uid (now d) n))).
Qed.

Lemma keeps_delete_read uid : keeps foreign_keys_hold (delete_read_notifications uid).
Proof.
  unfold delete_read_notifications. apply keeps_bind; [|intros; apply keeps_ret].
  exact (keeps_filter_notifications (fun _ n => negb (Nat.eqb (n_user_id n) uid && is_read n))).
Qed.

Lemma keeps_cleanup : keeps foreign_keys_hold cleanup_old_notifications.
Proof.
  unfold cleanup_old_notifications. apply keeps_bind; [|intros; apply keeps_ret].
  exact (keeps_filter_notifications (fun d n => negb (n_created_at n <? now d - thirty_days))).
Qed.

(** X11: the ten modelled database functions that write to the appointments, prescriptions, uploads and notifications tables (create_appointment, update_appointment_status, cancel_appointment, create_prescription, delete_uploaded_prescription, create_notification, get_user_notifications with its sweep, mark_notifications_as_read, delete_read_notifications and cleanup_old_notifications) each keep the FOREIGN KEY constraints of models.py when they hold before. The user, profile and upload-insert writers of database.py are not covered. *)
Theorem writes_keep_foreign_keys :
  (forall pid did dt tm sym, keeps foreign_keys_hold (create_appointment pid did dt tm sym)) /\
  (forall aid st, keeps foreign_keys_hold (update_appointment_status aid st)) /\
  (forall aid, keeps foreign_keys_hold (cancel_appointment aid)) /\
  (forall did pid aid diag meds nts,
     keeps foreign_keys_hold (create_prescription did pid aid diag meds nts)) /\
  (forall uid, keeps foreign_keys_hold (delete_uploaded_prescription uid)) /\
  (forall uid ty msg lnk aid pid,
     keeps foreign_keys_hold (create_notification uid ty msg lnk aid pid)) /\
  (forall uid unread, keeps foreign_keys_hold (get_user_notifications uid unread)) /\
  (forall uid, keeps foreign_keys_hold (mark_notifications_as_read uid)) /\
  (forall uid, keeps foreign_keys_hold (delete_read_notifications uid)) /\
  keeps foreign_keys_hold cleanup_old_notifications.
Proof.
  repeat split; intros; first
    [ apply keeps_create_appointment | apply keeps_update_status | apply keeps_cancel
    | apply keeps_create_prescription | apply keeps_delete_upload
    | apply keeps_create_notification | apply keeps_get_user_notifications
    | apply keeps_mark_read | apply keeps_delete_read | apply keeps_cleanup ].
Qed.

Ltac keeps_route :=
  repeat (keeps_step || apply keeps_create_appointment || apply keeps_get_user_notifications
          || apply keeps_mark_read || apply keeps_delete_read).

(** X12: the patient and doctor routes accept_appointment, reject_appointment, complete_appointment, the POST of write_prescription, cancel_appointment_route, delete_uploaded_prescription, the POST of book_appointment, and the get_notifications, mark_notifications_read and get_notification_count API routes of either blueprint each keep the FOREIGN KEY constraints of models.py when they hold before. upload_prescription_api and the auth.py routes that write (signup, doctor_signup, edit_profile) are not covered. *)
Theorem routes_keep_foreign_keys sess :
  (forall aid, keeps foreign_keys_hold (accept_appointment sess aid)) /\
  (forall aid, keeps foreign_keys_hold (reject_appointment sess aid)) /\
  (forall aid, keeps foreign_keys_hold (complete_appointment sess aid)) /\
  (forall pid aid form, keeps foreign_keys_hold (write_prescription sess pid aid form)) /\
  (forall aid, keeps foreign_keys_hold (cancel_appointment_route sess aid)) /\
  (forall uid, keeps foreign_keys_hold (delete_uploaded_prescription_route sess uid)) /\
  (forall form, keeps foreign_keys_hold (book_appointment sess form)) /\
  (forall r, keeps foreign_keys_hold (get_notifications r sess)) /\
  (forall r, keeps foreign_keys_hold (mark_notifications_read r sess)) /\
  (forall r, keeps foreign_keys_hold (get_notification_count r sess)).
Proof.
  repeat split; intros;
    unfold accept_appointment, reject_appointment, complete_appointment, write_prescription,
      cancel_appointment_route, delete_uploaded_prescription_route, book_appointment,
      get_notifications, mark_notifications_read, get_notification_count,
      get_unread_notification_count;
    keeps_route.
Qed.

Lemma filter_id_in {A} (p : A -> bool) (l : list A) :
  (forall x, In x l -> p x = true) -> filter p l = l.
Proof.
  induction l as [|x l IH]; intros H; cbn; [reflexivity|].
  rewrite (H x (or_introl eq_refl)), IH; [reflexivity|]. intros y Hy. apply H. right. exact Hy.
Qed.

Lemma filter_id_in_none {A} (p : A -> bool) (l : list A) :
  (forall x, In x l -> p x = false) -> filter p l = [].
Proof.
  induction l as [|x l IH]; intros H; cbn; [reflexivity|].
  rewrite (H x (or_introl eq_refl)). apply IH. intros y Hy. apply H. right. exact Hy.
Qed.

Lemma map_id_in {A} (f : A -> A) (l : list A) :
  (forall x, In x l -> f x = x) -> map f l = l.
Proof.
  induction l as [|x l IH]; intros H; cbn; [reflexivity|].
  rewrite (H x (or_introl eq_refl)), IH; [reflexivity|]. intros y Hy. apply H. right. exact Hy.
Qed.

Lemma fk_ref_below d r :
  (forall a, In a (appointments d) -> (a_id a <= seq_appointments d)%nat) ->
  opt_ref (appointment_exists d) r = true ->
  match r with Some x => (x <= seq_appointments d)%nat | None => True end.
Proof.
  intros Hle. destruct r as [x|]; cbn; [|auto]. intros Hx.
  apply appointment_exists_iff in Hx as [a [Hin <-]]. exact (Hle a Hin).
Qed.

(** X13: on a database satisfying its foreign keys whose appointment ids do not exceed the counter, booking an appointment and then cancelling it by its new id gives back the same users, appointments, prescriptions, uploads and notifications. *)
Theorem book_then_cancel_restores sess uid form did s :
  s_user_id sess = Some uid -> s_role sess = Some PATIENT -> faults s = [] ->
  truthy (b_date form) = true -> truthy (b_time form) = true ->
  py_int (get_or_empty (b_doctor_id form)) = Some (Z.of_nat did) ->
  user_exists (db_of s) uid = true -> user_exists (db_of s) did = true ->
  foreign_keys_hold (db_of s) = true ->
  (forall a, In a (appointments (db_of s)) -> (a_id a <= seq_appointments (db_of s))%nat) ->
  exists s1 s2,
    book_appointment sess form s = (Ok (Redirect "success" "patient.appointments"), s1) /\
    cancel_appointment_route sess (S (seq_appointments (db_of s))) s1 =
      (Ok (Redirect "success" "patient.appointments"), s2) /\
    users (db_of s2) = users (db_of s) /\
    appointments (db_of s2) = appointments (db_of s) /\
    prescriptions (db_of s2) = prescriptions (db_of s) /\
    uploads (db_of s2) = uploads (db_of s) /\
    notifications (db_of s2) = notifications (db_of s).
Proof.
  intros Hu Hr Hf T2 T3 P Ep Ed Hfk Hle.
  destruct (book_appointment_run sess uid form did s Hu Hr Hf T2 T3 P Ep Ed) as [u [Fu Hrun]].
  cbn zeta in Hrun. do 2 eexists. split; [exact Hrun|]. split.
  { unfold cancel_appointment_route, flask_route, role_required. rewrite Hu, Hr.
    cbn [role_eqb]. reflexivity. }
  cbn zeta. cbn [db_of set_prescriptions set_notifications set_appointments users appointments
    prescriptions uploads notifications].
  fk_parts Hfk. set (d := db_of s) in *. set (aid := S (seq_appointments d)).
  set (row := mk_appointment aid uid did _ _ _ PENDING (now d)).
  assert (Hold : forall x, In x (appointments d) -> Nat.eqb (a_id x) aid = false)
    by (intros x Hx; apply Nat.eqb_neq; specialize (Hle x Hx); unfold aid; lia).
  assert (Hdel : filter (fun a => Nat.eqb (a_id a) aid) (appointments d ++ [row]) = [row]).
  { rewrite filter_app, filter_id_in_none by exact Hold. cbn. rewrite Nat.eqb_refl. reflexivity. }
  assert (Hgone : forall r, match r with
                  | Some x => existsb (fun a => Nat.eqb (a_id a) x)
                                (filter (fun a => Nat.eqb (a_id a) aid) (appointments d ++ [row]))
                  | None => false end = match r with Some x => Nat.eqb aid x | None => false end).
  { intros [x|]; [|reflexivity]. rewrite Hdel. cbn. apply orb_false_r. }
  assert (Hbelow : forall r, opt_ref (appointment_exists d) r = true ->
                   match r with Some x => Nat.eqb aid x | None => false end = false).
  { intros r Hr'. pose proof (fk_ref_below d r Hle Hr') as Hb. destruct r as [x|]; [|reflexivity].
    apply Nat.eqb_neq. unfold aid. lia. }
  split; [reflexivity|]. split; [|split; [|split; [reflexivity|]]].
  - rewrite filter_app, filter_id_in by (intros x Hx; rewrite (Hold x Hx); reflexivity).
    cbn. rewrite Nat.eqb_refl. apply app_nil_r.
  - apply map_id_in. intros p Hp. rewrite Hgone.
    specialize (Hpr p Hp). apply andb_true_iff in Hpr as [_ Hpr].
    rewrite (Hbelow _ Hpr). reflexivity.
  - rewrite filter_app, filter_id_in.
    + cbn [filter n_appointment_id]. rewrite Hdel. cbn [existsb a_id row].
      rewrite Nat.eqb_refl. apply app_nil_r.
    + intros n Hn'. rewrite Hgone. specialize (Hn n Hn'). apply andb_true_iff in Hn as [Hn _].
      apply andb_true_iff in Hn as [_ Hn]. rewrite (Hbelow _ Hn). reflexivity.
Qed.

Lemma reject_route_users sess uid aid s :
  s_user_id sess = Some uid -> s_role sess = Some DOCTOR -> faults s = [] ->
  users (db_of (snd (reject_appointment sess aid s))) = users (db_of s).
Proof.
  intros Hu Hr Hf. unfold reject_appointment. enter_doctor_route Hu Hr. rewrite Hf. simpl.
  destruct (find_appointment (db_of s) aid) eqn:Ha; simpl; [|reflexivity].
  unfold create_notification, execute_write, next_fault. simpl.
  destruct (insert_notification_row _ _ _ _ _ _ _) as [[d' r]|e] eqn:E; simpl;
    [rewrite (proj1 (insert_notification_row_ok _ _ _ _ _ _ _ _ _ E))|]; reflexivity.
Qed.

(** X14: after a doctor rejects an appointment it no longer appears on its patient's appointments page, while the doctor's own appointment list still shows it, with status REJECTED and the patient's name. *)
Theorem rejected_leaves_patient_view sess uid aid s a dds :
  s_user_id sess = Some uid -> s_role sess = Some DOCTOR -> faults s = [] ->
  find_appointment (db_of s) aid = Some a ->
  let s' := snd (reject_appointment sess aid s) in
  (exists rows,
     fst (patient_appointments_view dds (patient_id a) s') = Ok rows /\
     forall r, In r rows -> a_id (pa_appointment r) <> aid) /\
  (forall u, find_user (db_of s) (patient_id a) = Some u ->
     exists rows,
       fst (get_doctor_appointments (doctor_id a) s') = Ok rows /\
       In (with_status a REJECTED, full_name u) rows).
Proof.
  intros Hu Hr Hf Ha s'.
  destruct (find_appointment_in _ _ _ Ha) as [Hin Hid].
  destruct (transition_routes_appointments sess uid aid s Hu Hr Hf) as [_ [Hrej _]].
  pose proof (reject_route_users sess uid aid s Hu Hr Hf) as Husers. fold s' in Hrej, Husers.
  split.
  - eexists. split; [reflexivity|]. intros r Hr' E.
    apply (patient_view_In dds (patient_id a) s' _ s' r eq_refl) in Hr'
      as [Hr1 [_ [Hnr _]]].
    rewrite Hrej in Hr1. apply in_map_iff in Hr1 as [x [Hx _]].
    destruct (Nat.eqb (a_id x) aid) eqn:Ex.
    + rewrite <- Hx in Hnr. apply Hnr. reflexivity.
    + subst x. rewrite E, Nat.eqb_refl in Ex. discriminate.
  - intros u Fu. eexists. split; [reflexivity|].
    apply (get_doctor_appointments_In (doctor_id a) s' _ s'); [reflexivity|].
    split.
    { rewrite Hrej. apply in_map_iff. exists a. rewrite Hid, Nat.eqb_refl. auto. }
    split; [reflexivity|]. exists u. split; [|reflexivity].
    unfold find_user. rewrite Husers. exact Fu.
Qed.

Lemma clinic_ids_nodup : NoDup (map a_id (appointments clinic)).
Proof. cbn. constructor; [cbn; intros [H|[]]; discriminate|]. constructor; [intros []|constructor]. Defined.

Lemma clinic_ids_below : forall a, In a (appointments clinic) -> (a_id a <= seq_appointments clinic)%nat.
Proof. intros a Hin. cbn in Hin. destruct Hin as [<-|[<-|[]]]; cbn; lia. Defined.

Lemma badge_matches_list_witness :
  get_notification_count PATIENT alice_session (mk_st clinic []) =
    (Ok (JsonCount 0), mk_st clinic []).
Proof.
  exact (proj1 (badge_matches_list PATIENT alice_session 1 (mk_st clinic []) eq_refl eq_refl eq_refl)).
Defined.

Lemma open_panel_clears_badge_witness :
  fst (get_notification_count DOCTOR bob_session
         (snd (mark_notifications_read DOCTOR bob_session (mk_st clinic [])))) = Ok (JsonCount 0).
Proof.
  exact (proj1 (open_panel_clears_badge DOCTOR bob_session 2 (mk_st clinic []) eq_refl eq_refl eq_refl)).
Defined.

Lemma notification_raises_badge_witness :
  exists c,
    fst (get_unread_notification_count 2 (mk_st clinic [])) = Ok c /\
    fst (get_unread_notification_count 2
           (snd (create_notification 2 APPOINTMENT_REQUESTED "new request" None (Some 2%nat) None
                   (mk_st clinic [])))) = Ok (c + 1)%nat.
Proof.
  exact (notification_raises_badge 2 APPOINTMENT_REQUESTED "new request" None (Some 2%nat) None
           (mk_st clinic []) 2
           (snd (create_notification 2 APPOINTMENT_REQUESTED "new request" None (Some 2%nat) None
                   (mk_st clinic []))) eq_refl 2).
Defined.

Lemma doctor_stats_follow_transitions_witness :
  exists st st',
    fst (get_doctor_stats "2025-02-01" 2 (mk_st clinic [])) = Ok st /\
    fst (get_doctor_stats "2025-02-01" 2 (snd (accept_appointment bob_session 2 (mk_st clinic []))))
      = Ok st' /\
    (pending_appointments st' + 1 = pending_appointments st)%nat /\
    today_appointments st' = (today_appointments st + 1)%nat.
Proof.
  destruct (doctor_stats_follow_transitions bob_session 2 2 (mk_st clinic []) appt2 "2025-02-01"
              eq_refl eq_refl eq_refl clinic_ids_nodup eq_refl) as [H _].
  exact (proj1 (H eq_refl)).
Defined.

Lemma roster_within_patient_count_witness :
  exists st roster,
    fst (get_doctor_stats "2025-02-01" 2 (mk_st clinic [])) = Ok st /\
    fst (get_doctor_patients 2 (mk_st clinic [])) = Ok roster /\
    length roster = total_patients st.
Proof.
  destruct (roster_within_patient_count 2 "2025-02-01" (mk_st clinic []))
    as [st [roster [H1 [H2 [_ H3]]]]].
  exists st, roster. split; [exact H1|]. split; [exact H2|]. apply H3.
  intros a Hin Hd Hc. cbn in Hin. destruct Hin as [<-|[<-|[]]]; cbn in *; try discriminate;
    split; eexists; reflexivity.
Defined.

Lemma book_appointment_rejected_witness :
  book_appointment alice_session booking_form_bad (mk_st clinic []) =
    (Ok (Redirect "danger" "patient.book_appointment"), mk_st clinic []).
Proof.
  apply (book_appointment_rejected alice_session 1 booking_form_bad (mk_st clinic []) eq_refl eq_refl
           eq_refl).
  right; right; right; left. reflexivity.
Defined.

Lemma book_appointment_books_witness :
  exists s',
    book_appointment alice_session booking_form_demo (mk_st clinic []) =
      (Ok (Redirect "success" "patient.appointments"), s') /\
    appointments (db_of s') = appointments clinic ++
      [mk_appointment 3 1 2 "2025-03-01" "09:00" (Some "cough"%string) PENDING clinic_now].
Proof.
  destruct (book_appointment_books alice_session 1 booking_form_demo 2 (mk_st clinic [])
              eq_refl eq_refl eq_refl eq_refl eq_refl eq_refl eq_refl eq_refl) as [s' [H1 [H2 _]]].
  exists s'. split; [exact H1|]. rewrite H2. reflexivity.
Defined.

Lemma book_appointment_fault_keeps_row_witness :
  exists s',
    book_appointment alice_session booking_form_demo (mk_st clinic [false; true]) =
      (Ok (Redirect "danger" "patient.book_appointment"), s') /\
    appointments (db_of s') = appointments clinic ++
      [mk_appointment 3 1 2 "2025-03-01" "09:00" (Some "cough"%string) PENDING clinic_now].
Proof.
  destruct (book_appointment_fault_keeps_row alice_session 1 booking_form_demo 2
              (mk_st clinic [false; true])
              eq_refl eq_refl eq_refl eq_refl eq_refl eq_refl eq_refl eq_refl) as [s' [H1 [H2 _]]].
  exists s'. split; [exact H1|]. rewrite H2. reflexivity.
Defined.

Lemma writes_keep_foreign_keys_witness :
  foreign_keys_hold clinic = true /\
  foreign_keys_hold (db_of (snd (cancel_appointment 1 (mk_st clinic [])))) = true.
Proof.
  split; [reflexivity|].
  exact (proj1 (proj2 (proj2 writes_keep_foreign_keys)) 1%nat (mk_st clinic []) eq_refl).
Defined.

Lemma routes_keep_foreign_keys_witness :
  foreign_keys_hold clinic = true /\
  foreign_keys_hold (db_of (snd (accept_appointment bob_session 2 (mk_st clinic [])))) = true.
Proof.
  split; [reflexivity|].
  exact (proj1 (routes_keep_foreign_keys bob_session) 2%nat (mk_st clinic []) eq_refl).
Defined.

Lemma book_then_cancel_restores_witness :
  exists s1 s2,
    book_appointment alice_session booking_form_demo (mk_st clinic []) =
      (Ok (Redirect "success" "patient.appointments"), s1) /\
    cancel_appointment_route alice_session 3 s1 =
      (Ok (Redirect "success" "patient.appointments"), s2) /\
    notifications (db_of s2) = notifications clinic.
Proof.
  destruct (book_then_cancel_restores alice_session 1 booking_form_demo 2 (mk_st clinic [])
              eq_refl eq_refl eq_refl eq_refl eq_refl eq_refl eq_refl eq_refl eq_refl
              clinic_ids_below) as [s1 [s2 [H1 [H2 [_ [_ [_ [_ H3]]]]]]]].
  exists s1, s2. auto.
Defined.

Lemma rejected_leaves_patient_view_witness :
  exists rows,
    fst (patient_appointments_view [mk_doctor_detail 2 "Cardiology"] 1
           (snd (reject_appointment bob_session 2 (mk_st clinic [])))) = Ok rows /\
    forall r, In r rows -> a_id (pa_appointment r) <> 2%nat.
Proof.
  exact (proj1 (rejected_leaves_patient_view bob_session 2 2 (mk_st clinic []) appt2
                  [mk_doctor_detail 2 "Cardiology"] eq_refl eq_refl eq_refl eq_refl)).
Defined.
